(** * pIDEstyx: the editor shell of [ide-core/ui/src/App.tsx]

    A shallow embedding of the React component [App] and of its simpler
    sibling (the second [App.tsx] of the repository, with a buffer and a
    Save button only), followed by the properties of the shell runtime:
    host requests and their continuations, the resizable sidebar, the
    editor handle and the file list.

    React is modelled by what the component can observe of it:
    - a [useState] setter queues a value; the closures of the last render
      (event handlers, effects) keep reading the values of that render until
      React renders again ([Render]);
    - a [useEffect] runs after the first render ([Mount]) and after every
      render in which one of its dependencies changed;
    - a [useRef] cell is an ordinary mutable cell.
    Host calls ([invoke]) are asynchronous: a call adds a pending request,
    and the host settles pending requests later, in any order.

    The model covers the component from its first render on; unmounting
    (the cleanups of the effects) is outside it. Pixel coordinates are
    integers. *)

From Stdlib Require Import List String Ascii ZArith Bool Lia.
Import ListNotations.
Local Open Scope string_scope.
Local Open Scope list_scope.

(** ** JavaScript helpers used by the component *)

Module Js.

(** [s.split(sep)] for a one-character separator: the pieces between the
    occurrences of [sep]; never empty ([""] splits into [[""]]). *)
Fixpoint split (sep : ascii) (s : string) : list string :=
  match s with
  | EmptyString => [EmptyString]
  | String c rest =>
      if Ascii.eqb c sep then EmptyString :: split sep rest
      else match split sep rest with
           | piece :: pieces => String c piece :: pieces
           | [] => [String c EmptyString]
           end
  end.

(** [a.pop()]: the last element, [undefined] ([None]) on an empty array. *)
Fixpoint pop {A : Type} (a : list A) : option A :=
  match a with
  | [] => None
  | [x] => Some x
  | _ :: rest => pop rest
  end.

(** [value || ""] for [value : string | undefined]; the empty string is
    falsy as well, and yields the empty string either way. *)
Definition or_empty (value : option string) : string :=
  match value with
  | Some v => v
  | None => ""
  end.

(** [Math.max(a, b)] on integral pixel coordinates. *)
Definition max (a b : Z) : Z := Z.max a b.

(** [s] contains the character [c]. *)
Fixpoint contains (c : ascii) (s : string) : bool :=
  match s with
  | EmptyString => false
  | String d rest => Ascii.eqb d c || contains c rest
  end.

End Js.

(** The path separator of [file.split("/")]. *)
Definition slash : ascii := "/"%char.

(** ** The host bridge: [invoke] *)

(** The value a host call rejects with ([err] in the [catch] clauses). *)
Definition HostError := string.

(** The outcome of a promise returned by [invoke<A>]. *)
Inductive HostResult (A : Type) : Type :=
| Resolved (value : A)
| Rejected (err : HostError).
Arguments Resolved {A} value.
Arguments Rejected {A} err.

(** Where a [load_buffer] call was issued: the effect on the project root
    chains [.then(setCode).catch(...)]; [handleLoad] awaits it bare. *)
Inductive LoadOrigin : Type :=
| FromEffect
| FromButton.

(** An outstanding [invoke] call with its arguments. *)
Inductive Request : Type :=
| ReqListFiles (root : string)         (* invoke("list_files", { root }) *)
| ReqLoadBuffer (origin : LoadOrigin)  (* invoke("load_buffer") *)
| ReqSaveBuffer (contents : string).   (* invoke("save_buffer", { contents }) *)

(** What the component does to the outside, in order. *)
Inductive Effect : Type :=
| Layout                                         (* editor.layout() *)
| ConsoleLog (msg : string)                      (* console.log(msg) *)
| ConsoleError (msg : string) (err : HostError)  (* console.error(msg, err) *)
| UncaughtTypeError                              (* a call through a null handle *)
| UnhandledRejection (err : HostError).          (* a rejected promise nobody catches *)

Definition is_console (e : Effect) : bool :=
  match e with
  | ConsoleLog _ | ConsoleError _ _ => true
  | _ => false
  end.

(** Removes the request at position [n]. *)
Fixpoint drop_nth {A : Type} (n : nat) (l : list A) : list A :=
  match l, n with
  | [], _ => []
  | _ :: rest, O => rest
  | x :: rest, S m => x :: drop_nth m rest
  end.

(** ** The component [App] of [ide-core/ui/src/App.tsx] *)

(** The [useState] values of one render. ([currentFileName] is declared by
    the component and never read or set; it is left out.) *)
Record Snapshot : Type := mkSnapshot {
  code : string;
  projectRoot : string;
  fileList : list string;
  isResizing : bool
}.

(** The mounted editor widget, used only through [layout()]. *)
Inductive EditorHandle : Type := MonacoEditor.

(** The sidebar [div]; [style.width] is [`${widthPx}px`]. *)
Record Sidebar : Type := mkSidebar { widthPx : Z }.

Record State : Type := mkState {
  hooks : Snapshot;            (* the state the setters have produced *)
  rendered : Snapshot;         (* the state of the last render, read by its closures *)
  editorRef : option EditorHandle;
  sidebarRef : option Sidebar;
  editorContainerRef : bool;   (* the container div is attached *)
  mounted : bool;              (* the effects of the first render have run *)
  listeners : option bool;     (* window listeners installed, with the
                                  [isResizing] their closure captured *)
  observer : bool;             (* the ResizeObserver is observing *)
  pending : list Request;
  trace : list Effect
}.

Definition placeholder : string :=
  ("// Welcome to pIDEstyx IDE!" ++ String (ascii_of_nat 10) "")%string.

Definition initialSnapshot : Snapshot :=
  {| code := placeholder;
     projectRoot := "/path/to/project";
     fileList := [];
     isResizing := false |}.

(** The component after its first render, before any effect has run: the
    two [div] refs are attached, the sidebar has its styled width of 250px,
    the editor has not called [onMount] yet. *)
Definition init : State :=
  {| hooks := initialSnapshot;
     rendered := initialSnapshot;
     editorRef := None;
     sidebarRef := Some {| widthPx := 250 |};
     editorContainerRef := true;
     mounted := false;
     listeners := None;
     observer := false;
     pending := [];
     trace := [] |}.

(** *** Field updates *)

Definition with_hooks (h : Snapshot) (s : State) : State :=
  mkState h (rendered s) (editorRef s) (sidebarRef s) (editorContainerRef s)
          (mounted s) (listeners s) (observer s) (pending s) (trace s).

Definition with_rendered (r : Snapshot) (s : State) : State :=
  mkState (hooks s) r (editorRef s) (sidebarRef s) (editorContainerRef s)
          (mounted s) (listeners s) (observer s) (pending s) (trace s).

Definition with_editorRef (e : option EditorHandle) (s : State) : State :=
  mkState (hooks s) (rendered s) e (sidebarRef s) (editorContainerRef s)
          (mounted s) (listeners s) (observer s) (pending s) (trace s).

Definition with_sidebarRef (d : option Sidebar) (s : State) : State :=
  mkState (hooks s) (rendered s) (editorRef s) d (editorContainerRef s)
          (mounted s) (listeners s) (observer s) (pending s) (trace s).

Definition with_mounted (m : bool) (s : State) : State :=
  mkState (hooks s) (rendered s) (editorRef s) (sidebarRef s) (editorContainerRef s)
          m (listeners s) (observer s) (pending s) (trace s).

Definition with_listeners (l : option bool) (s : State) : State :=
  mkState (hooks s) (rendered s) (editorRef s) (sidebarRef s) (editorContainerRef s)
          (mounted s) l (observer s) (pending s) (trace s).

Definition with_observer (o : bool) (s : State) : State :=
  mkState (hooks s) (rendered s) (editorRef s) (sidebarRef s) (editorContainerRef s)
          (mounted s) (listeners s) o (pending s) (trace s).

Definition with_pending (p : list Request) (s : State) : State :=
  mkState (hooks s) (rendered s) (editorRef s) (sidebarRef s) (editorContainerRef s)
          (mounted s) (listeners s) (observer s) p (trace s).

Definition emit (e : Effect) (s : State) : State :=
  mkState (hooks s) (rendered s) (editorRef s) (sidebarRef s) (editorContainerRef s)
          (mounted s) (listeners s) (observer s) (pending s) (trace s ++ [e]).

(** [invoke(...)]: the call is outstanding until the host settles it. *)
Definition invoke (r : Request) (s : State) : State :=
  with_pending (pending s ++ [r]) s.

(** *** The [useState] setters *)

Definition setCode (v : string) (s : State) : State :=
  with_hooks (mkSnapshot v (projectRoot (hooks s)) (fileList (hooks s))
                         (isResizing (hooks s))) s.

Definition setProjectRoot (v : string) (s : State) : State :=
  with_hooks (mkSnapshot (code (hooks s)) v (fileList (hooks s))
                         (isResizing (hooks s))) s.

Definition setFileList (v : list string) (s : State) : State :=
  with_hooks (mkSnapshot (code (hooks s)) (projectRoot (hooks s)) v
                         (isResizing (hooks s))) s.

Definition setIsResizing (v : bool) (s : State) : State :=
  with_hooks (mkSnapshot (code (hooks s)) (projectRoot (hooks s))
                         (fileList (hooks s)) v) s.

(** *** Handlers and effects, in the order of the source *)

(** [invoke("load_buffer").then(setCode).catch(() => console.log(...))]
    once the host has settled the call. *)
Definition loadOnRootContinuation (r : HostResult string) (s : State) : State :=
  match r with
  | Resolved contents => setCode contents s
  | Rejected _ => emit (ConsoleLog "No existing buffer found") s
  end.

(** [refreshFileList] up to its [await]: the request carries the project
    root of the render whose effect called it. *)
Definition refreshFileList (s : State) : State :=
  invoke (ReqListFiles (projectRoot (rendered s))) s.

(** [refreshFileList] after its [await]: the [try] body goes on with
    [setFileList(files)], the [catch] clause logs. Nothing here looks at the
    root the request was made for, nor at the current one. *)
Definition refreshFileListContinuation
    (r : HostResult (list string)) (s : State) : State :=
  match r with
  | Resolved files => setFileList files s
  | Rejected err => emit (ConsoleError "Failed to list files" err) s
  end.

(** The effect with dependency [projectRoot]. *)
Definition rootEffect (s : State) : State :=
  invoke (ReqLoadBuffer FromEffect) (refreshFileList s).

(** [handleMouseMove], a closure over [isResizing] and the two refs. *)
Definition handleMouseMove (isResizing : bool) (clientX : Z) (s : State) : State :=
  match isResizing, sidebarRef s with
  | true, Some _ =>
      let newWidth := Js.max 150 clientX in
      let s1 := with_sidebarRef (Some {| widthPx := newWidth |}) s in
      match editorRef s1 with
      | Some _ => emit Layout s1
      | None => s1
      end
  | _, _ => s
  end.

(** [handleMouseUp]. *)
Definition handleMouseUp (s : State) : State :=
  let s1 := setIsResizing false s in
  match editorRef s1 with
  | Some _ => emit Layout s1
  | None => s1
  end.

(** The effect with dependency [isResizing]: its cleanup removes the two
    window listeners of the previous run, its body adds the two of this
    render. *)
Definition resizeEffect (s : State) : State :=
  with_listeners (Some (isResizing (rendered s))) s.

(** The callback of the ResizeObserver: [editorRef.current!.layout()], with
    no test of the handle. *)
Definition observerCallback (s : State) : State :=
  match editorRef s with
  | Some _ => emit Layout s
  | None => emit UncaughtTypeError s
  end.

(** The effect with no dependency: runs once, after the first render. *)
Definition observerEffect (s : State) : State :=
  match editorContainerRef s, editorRef s with
  | true, Some _ => with_observer true s
  | _, _ => s
  end.

(** [handleEditorChange]. *)
Definition handleEditorChange (value : option string) (s : State) : State :=
  setCode (Js.or_empty value) s.

(** [handleSave] up to its [await]. *)
Definition handleSave (s : State) : State :=
  invoke (ReqSaveBuffer (code (rendered s))) s.

(** [handleSave] after its [await]: there is no [try]; a rejection rejects
    the promise [handleSave] returned to the button, which drops it. *)
Definition handleSaveContinuation (r : HostResult unit) (s : State) : State :=
  match r with
  | Resolved _ => s
  | Rejected err => emit (UnhandledRejection err) s
  end.

(** [handleLoad] up to its [await]. *)
Definition handleLoad (s : State) : State :=
  invoke (ReqLoadBuffer FromButton) s.

(** [handleLoad] after its [await]. *)
Definition handleLoadContinuation (r : HostResult string) (s : State) : State :=
  match r with
  | Resolved contents => setCode contents s
  | Rejected err => emit (UnhandledRejection err) s
  end.

(** The [onMount] callback given to the editor. *)
Definition onMount (s : State) : State :=
  emit Layout (with_editorRef (Some MonacoEditor) s).

(** The three effects after the first render, in source order. *)
Definition mount (s : State) : State :=
  observerEffect (resizeEffect (rootEffect (with_mounted true s))).

(** A render: the closures now read the state the setters produced, and
    the effects whose dependency changed run again. *)
Definition render (s : State) : State :=
  let before := rendered s in
  let s1 := with_rendered (hooks s) s in
  let s2 := if String.eqb (projectRoot before) (projectRoot (rendered s1))
            then s1 else rootEffect s1 in
  if Bool.eqb (isResizing before) (isResizing (rendered s2))
  then s2 else resizeEffect s2.

(** *** Events *)

Inductive Event : Type :=
| Mount                                   (* the effects of the first render *)
| Render                                  (* React renders the queued state *)
| EditorMounted                           (* the editor calls onMount *)
| EditorChange (value : option string)    (* the editor calls onChange *)
| RootInput (value : string)              (* onChange of the root input *)
| ClickSave
| ClickLoad
| DragHandleMouseDown                     (* onMouseDown of the drag handle *)
| WindowMouseMove (clientX : Z)           (* "mousemove" on window *)
| WindowMouseUp                           (* "mouseup" on window *)
| ContainerResized                        (* the ResizeObserver fires *)
| ListFilesSettled (n : nat) (r : HostResult (list string))
| LoadBufferSettled (n : nat) (r : HostResult string)
| SaveBufferSettled (n : nat) (r : HostResult unit).

(** The host settles the pending request at position [n]; the event does
    nothing when that request is not of its kind. *)
Definition settleListFiles (n : nat) (r : HostResult (list string)) (s : State) : State :=
  match nth_error (pending s) n with
  | Some (ReqListFiles _) =>
      refreshFileListContinuation r (with_pending (drop_nth n (pending s)) s)
  | _ => s
  end.

Definition settleLoadBuffer (n : nat) (r : HostResult string) (s : State) : State :=
  match nth_error (pending s) n with
  | Some (ReqLoadBuffer FromEffect) =>
      loadOnRootContinuation r (with_pending (drop_nth n (pending s)) s)
  | Some (ReqLoadBuffer FromButton) =>
      handleLoadContinuation r (with_pending (drop_nth n (pending s)) s)
  | _ => s
  end.

Definition settleSaveBuffer (n : nat) (r : HostResult unit) (s : State) : State :=
  match nth_error (pending s) n with
  | Some (ReqSaveBuffer _) =>
      handleSaveContinuation r (with_pending (drop_nth n (pending s)) s)
  | _ => s
  end.

(** One event. Before [Mount] nothing is listening but the editor, whose
    [onMount] may come before or after the effects of [App]. *)
Definition step (e : Event) (s : State) : State :=
  match e with
  | Mount => if mounted s then s else mount s
  | EditorMounted => onMount s
  | _ =>
      if negb (mounted s) then s else
      match e with
      | Render => render s
      | EditorChange value => handleEditorChange value s
      | RootInput value => setProjectRoot value s
      | ClickSave => handleSave s
      | ClickLoad => handleLoad s
      | DragHandleMouseDown => setIsResizing true s
      | WindowMouseMove clientX =>
          match listeners s with
          | Some captured => handleMouseMove captured clientX s
          | None => s
          end
      | WindowMouseUp =>
          match listeners s with
          | Some _ => handleMouseUp s
          | None => s
          end
      | ContainerResized => if observer s then observerCallback s else s
      | ListFilesSettled n r => settleListFiles n r s
      | LoadBufferSettled n r => settleLoadBuffer n r s
      | SaveBufferSettled n r => settleSaveBuffer n r s
      | Mount | EditorMounted => s
      end
  end.

(** An event followed by the render React performs before the browser
    delivers the next one. *)
Definition dispatch (e : Event) (s : State) : State :=
  step Render (step e s).

(** A sequence of events, oldest first. *)
Definition run (events : list Event) (s : State) : State :=
  fold_left (fun acc e => step e acc) events s.

(** The states the component can be in. *)
Definition reachable (s : State) : Prop :=
  exists events, s = run events init.

(** *** What is displayed *)

(** One [div] of [fileList.map(...)]: its [key] and its text. *)
Record FileItem : Type := mkFileItem {
  key : string;
  label : option string    (* [pop()] is [string | undefined] *)
}.

Definition renderFile (file : string) : FileItem :=
  {| key := file; label := Js.pop (Js.split slash file) |}.

Definition renderFileList (s : State) : list FileItem :=
  map renderFile (fileList (rendered s)).

(** The width of the sidebar, when it is attached. *)
Definition sidebarWidth (s : State) : option Z :=
  option_map widthPx (sidebarRef s).

(** ** The simpler [App]: a buffer and a Save button *)

Module Simple.

Record State : Type := mkState {
  code : string;            (* the state [setCode] has produced *)
  renderedCode : string;    (* [code] in the closures of the last render *)
  pending : list Request;
  trace : list Effect
}.

Definition init : State :=
  {| code := placeholder; renderedCode := placeholder;
     pending := []; trace := [] |}.

Definition setCode (v : string) (s : State) : State :=
  mkState v (renderedCode s) (pending s) (trace s).

Definition emit (e : Effect) (s : State) : State :=
  mkState (code s) (renderedCode s) (pending s) (trace s ++ [e]).

Definition with_pending (p : list Request) (s : State) : State :=
  mkState (code s) (renderedCode s) p (trace s).

(** [handleEditorChange]. *)
Definition handleEditorChange (value : option string) (s : State) : State :=
  setCode (Js.or_empty value) s.

(** [handleSave] up to its [await], inside the [try]. *)
Definition handleSave (s : State) : State :=
  with_pending (pending s ++ [ReqSaveBuffer (renderedCode s)]) s.

(** [handleSave] after its [await]: the rest of the [try] body, or the
    [catch] clause. *)
Definition handleSaveContinuation (r : HostResult unit) (s : State) : State :=
  match r with
  | Resolved _ => emit (ConsoleLog "Saved successfully") s
  | Rejected err => emit (ConsoleError "Failed to save" err) s
  end.

Definition render (s : State) : State :=
  mkState (code s) (code s) (pending s) (trace s).

Inductive Event : Type :=
| Render
| EditorChange (value : option string)
| ClickSave
| SaveBufferSettled (n : nat) (r : HostResult unit).

Definition step (e : Event) (s : State) : State :=
  match e with
  | Render => render s
  | EditorChange value => handleEditorChange value s
  | ClickSave => handleSave s
  | SaveBufferSettled n r =>
      match nth_error (pending s) n with
      | Some (ReqSaveBuffer _) =>
          handleSaveContinuation r (with_pending (drop_nth n (pending s)) s)
      | _ => s
      end
  end.

Definition run (events : list Event) (s : State) : State :=
  fold_left (fun acc e => step e acc) events s.

End Simple.

(** ** The host, as far as the buffer goes *)

Module Host.

(** Modelled from the spec: the host process behind [load_buffer] and
    [save_buffer] is not part of the front end. Its state is the persisted
    buffer, if any. *)
Definition Store := option string.

(** Modelled from the spec: [load_buffer] fetches the persisted buffer
    content and fails when no prior buffer exists. *)
Definition load_buffer (h : Store) : HostResult string :=
  match h with
  | Some contents => Resolved contents
  | None => Rejected "NotFound"
  end.

(** Modelled from the spec: [save_buffer] persists the given text
    verbatim, atomically. *)
Definition save_buffer (contents : string) (h : Store) : HostResult unit * Store :=
  (Resolved tt, Some contents).

(** Modelled from the spec: the host answers the pending request at
    position [n] of the component (only the two buffer commands are
    modelled) and the continuation of the call runs. React has not rendered
    yet when this returns. *)
Definition answer (n : nat) (w : State * Store) : State * Store :=
  let (s, h) := w in
  match nth_error (pending s) n with
  | Some (ReqLoadBuffer _) =>
      (step (LoadBufferSettled n (load_buffer h)) s, h)
  | Some (ReqSaveBuffer contents) =>
      let (r, h') := save_buffer contents h in
      (step (SaveBufferSettled n r) s, h')
  | _ => w
  end.

(** The user clicks Load and the host answers the call. *)
Definition loaded (s : State) (h : Store) : State * Store :=
  answer (List.length (pending s)) (step ClickLoad s, h).

(** The user clicks Save and the host answers the call. *)
Definition saved (s : State) (h : Store) : State * Store :=
  answer (List.length (pending s)) (step ClickSave s, h).

End Host.

(** ** Vocabulary of the properties *)

(** The invariant of the reachable states. *)
Record Inv (s : State) : Prop := mkInv {
  inv_sidebar : sidebarRef s <> None;
  inv_listeners :
    listeners s = if mounted s then Some (isResizing (rendered s)) else None;
  inv_before_mount :
    mounted s = false ->
    hooks s = initialSnapshot /\ rendered s = initialSnapshot /\
    observer s = false /\ pending s = [];
  inv_observer : observer s = true -> editorRef s <> None;
  inv_no_type_error : ~ In UncaughtTypeError (trace s);
  inv_layout : editorRef s = None -> ~ In Layout (trace s)
}.

(** No drag is in progress: the state, the last render and the installed
    listeners agree that [isResizing] is false. *)
Definition idle (s : State) : Prop :=
  isResizing (hooks s) = false /\
  isResizing (rendered s) = false /\
  listeners s <> Some true.

(** The claim C1 as the spec states it: a [list_files] result is applied
    only when the root it was requested for is the current root, and is
    dropped otherwise. *)
Definition stale_listing_discarded : Prop :=
  forall (events : list Event) (n : nat) (root : string) (files : list string),
    nth_error (pending (run events init)) n = Some (ReqListFiles root) ->
    root <> projectRoot (hooks (run events init)) ->
    fileList (hooks (step (ListFilesSettled n (Resolved files)) (run events init)))
    = fileList (hooks (run events init)).

(** The race of C1: the component mounts with root "/path/to/project", the
    root becomes "/b" while the first listing is outstanding, the listing of
    "/b" resolves first, the one of "/path/to/project" last. *)
Definition raceBeforeLateResponse : State :=
  run [Mount; RootInput "/b"; Render;
       ListFilesSettled 2 (Resolved ["/b/y.rs"]); Render] init.

(** The claim C7 as the spec states it: once the "mouseup" handler has set
    [isResizing] to false, a "mousemove" leaves the width alone. *)
Definition moves_ignored_after_pointer_up : Prop :=
  forall (before : list Event) (w : Z),
    isResizing (hooks (step WindowMouseUp (run before init))) = false ->
    sidebarWidth (step (WindowMouseMove w) (step WindowMouseUp (run before init)))
    = sidebarWidth (step WindowMouseUp (run before init)).

(** A drag to x = 420 that has just been released: the "mouseup" handler
    has run, React has not rendered yet. *)
Definition releasedNotRendered : State :=
  run [Mount; DragHandleMouseDown; Render; WindowMouseMove 420; WindowMouseUp]
      init.

(** The claim C9 as the spec states it: Load and then at once Save, with
    no edit, leaves the persisted buffer as it was. *)
Definition immediate_round_trip : Prop :=
  forall (events : list Event) (persisted : string),
    mounted (run events init) = true ->
    snd (Host.saved (fst (Host.loaded (run events init) (Some persisted)))
                    (snd (Host.loaded (run events init) (Some persisted))))
    = Some persisted.

(** An edit "draft" is on screen, unsaved. *)
Definition draftOnScreen : State :=
  run [Mount; EditorChange (Some "draft"); Render] init.

(** The failing save of [App]: mounted, Save clicked, the request (third in
    the queue, after the two of the root effect) still outstanding. *)
Definition saveOutstanding : State := run [Mount; ClickSave] init.

(** What the sidebar shows once the host has answered listing [n] with
    [files] and React has rendered. *)
Definition displayedAfterListing (s : State) (n : nat) (files : list string)
  : list FileItem :=
  renderFileList (dispatch (ListFilesSettled n (Resolved files)) s).

(** A drag is in progress and rendered: the sidebar is attached and the
    installed listeners have captured [isResizing] true. *)
Definition dragging (s : State) : Prop :=
  mounted s = true /\
  isResizing (hooks s) = true /\
  isResizing (rendered s) = true /\
  listeners s = Some true /\
  sidebarRef s <> None.

(** The pointer goes down on the drag handle and then moves through the
    x-coordinates [xs], React rendering after each event. *)
Definition dragThrough (xs : list Z) (s : State) : State :=
  fold_left (fun acc x => dispatch (WindowMouseMove x) acc) xs
            (dispatch DragHandleMouseDown s).

(** The request is a [save_buffer] call. *)
Definition is_save (r : Request) : bool :=
  match r with
  | ReqSaveBuffer _ => true
  | _ => false
  end.

(** The events whose handlers call [setCode], [setFileList],
    [setProjectRoot], and the one whose handler writes [style.width]. *)
Definition sets_code (e : Event) : bool :=
  match e with
  | EditorChange _ | LoadBufferSettled _ _ => true
  | _ => false
  end.

Definition sets_fileList (e : Event) : bool :=
  match e with
  | ListFilesSettled _ _ => true
  | _ => false
  end.

Definition sets_projectRoot (e : Event) : bool :=
  match e with
  | RootInput _ => true
  | _ => false
  end.

Definition sets_width (e : Event) : bool :=
  match e with
  | WindowMouseMove _ => true
  | _ => false
  end.

(** * Properties *)

(** ** Lists, strings and traces *)

Lemma run_app (xs ys : list Event) (s : State) :
  run (xs ++ ys) s = run ys (run xs s).
Proof. unfold run. apply fold_left_app. Qed.

Lemma run_snoc (xs : list Event) (e : Event) (s : State) :
  run (xs ++ [e]) s = step e (run xs s).
Proof. rewrite run_app. reflexivity. Qed.

Lemma reachable_init : reachable init.
Proof. exists []. reflexivity. Qed.

Lemma reachable_step (e : Event) (s : State) :
  reachable s -> reachable (step e s).
Proof.
  intros [events ->]. exists (events ++ [e]). symmetry. apply run_snoc.
Qed.

Lemma reachable_run (events : list Event) (s : State) :
  reachable s -> reachable (run events s).
Proof.
  intros [before ->]. exists (before ++ events). symmetry. apply run_app.
Qed.

Lemma split_not_nil (sep : ascii) (s : string) : Js.split sep s <> [].
Proof.
  destruct s as [|c rest]; simpl; [discriminate|].
  destruct (Ascii.eqb c sep); [discriminate|].
  destruct (Js.split sep rest); discriminate.
Qed.

Lemma split_no_sep (sep : ascii) (s : string) :
  Js.contains sep s = false -> Js.split sep s = [s].
Proof.
  induction s as [|c rest IH]; simpl; [reflexivity|].
  intros H. apply orb_false_iff in H as [Hc Hrest].
  rewrite Hc, (IH Hrest). reflexivity.
Qed.

Lemma split_at_sep (sep : ascii) (before after : string) :
  Js.split sep (before ++ String sep after)%string
  = Js.split sep before ++ Js.split sep after.
Proof.
  induction before as [|c rest IH]; simpl.
  - rewrite Ascii.eqb_refl. reflexivity.
  - rewrite IH. destruct (Ascii.eqb c sep); [reflexivity|].
    destruct (Js.split sep rest) as [|piece pieces] eqn:E; [|reflexivity].
    exfalso. exact (split_not_nil _ _ E).
Qed.

Lemma pop_app {A : Type} (xs ys : list A) :
  ys <> [] -> Js.pop (xs ++ ys) = Js.pop ys.
Proof.
  intros Hys. induction xs as [|x xs IH]; [reflexivity|].
  simpl. rewrite IH. destruct (xs ++ ys) eqn:E; [|reflexivity].
  apply app_eq_nil in E as [_ E]. contradiction.
Qed.

Lemma pop_split_some (sep : ascii) (s : string) :
  exists leaf, Js.pop (Js.split sep s) = Some leaf.
Proof.
  generalize (split_not_nil sep s).
  induction (Js.split sep s) as [|x xs IH]; intros H; [contradiction|].
  destruct xs as [|y ys]; [exists x; reflexivity|].
  apply IH. discriminate.
Qed.

(** The text of an item is what follows the last separator of the path. *)
Lemma leaf_after_last_slash (dir leaf : string) :
  Js.contains slash leaf = false ->
  label (renderFile (dir ++ String slash leaf)%string) = Some leaf.
Proof.
  intros H. unfold renderFile. simpl.
  rewrite split_at_sep, pop_app by apply split_not_nil.
  rewrite (split_no_sep _ _ H). reflexivity.
Qed.

Lemma leaf_without_slash (path : string) :
  Js.contains slash path = false -> label (renderFile path) = Some path.
Proof.
  intros H. unfold renderFile. simpl. rewrite (split_no_sep _ _ H). reflexivity.
Qed.

(** ** Invariants of the reachable states *)

Lemma in_snoc {A : Type} (x y : A) (l : list A) :
  In x (l ++ [y]) -> In x l \/ x = y.
Proof.
  intros H. apply in_app_or in H as [H|[H|[]]]; [left|right]; auto.
Qed.

Ltac inv_trace :=
  repeat match goal with |- _ = _ -> _ => intro end;
  let H := fresh in
  intro H; apply in_snoc in H as [H|H];
  [ first [ solve [eauto]
          | match goal with
            | Hn : _ -> ~ In ?e ?t, Hi : In ?e ?t |- _ =>
                apply (fun a => Hn a Hi); assumption
            end ]
  | discriminate H ].

Ltac inv_fields :=
  constructor; simpl;
  repeat match goal with
         | H : mounted _ = _ |- _ => rewrite H
         | H : editorRef _ = _ |- _ => rewrite H
         | H : observer _ = _ |- _ => rewrite H
         end;
  auto; try discriminate; try congruence; try inv_trace.

Lemma Inv_init : Inv init.
Proof. inv_fields. Qed.

Lemma Inv_render (s : State) : mounted s = true -> Inv s -> Inv (render s).
Proof.
  intros Hm [Hside Hlis Hbefore Hobs Hterr Hlay]. rewrite Hm in Hlis.
  unfold render, rootEffect, refreshFileList, resizeEffect, invoke. simpl.
  destruct (String.eqb (projectRoot (rendered s)) (projectRoot (hooks s)));
    simpl;
    destruct (Bool.eqb (isResizing (rendered s)) (isResizing (hooks s))) eqn:E;
    inv_fields; apply eqb_prop in E; congruence.
Qed.

Lemma Inv_step (e : Event) (s : State) : Inv s -> Inv (step e s).
Proof.
  intros HI. destruct (mounted s) eqn:Hm.
  - destruct e; simpl; rewrite ?Hm; simpl; auto using Inv_render;
      destruct HI as [Hside Hlis Hbefore Hobs Hterr Hlay]; rewrite Hm in Hlis;
      try (inv_fields; fail).
    + (* WindowMouseMove *)
      rewrite Hlis. unfold handleMouseMove.
      destruct (isResizing (rendered s)) eqn:Er; [|inv_fields].
      destruct (sidebarRef s); [|inv_fields].
      simpl. destruct (editorRef s) eqn:He; inv_fields.
    + (* WindowMouseUp *)
      rewrite Hlis. unfold handleMouseUp. simpl.
      destruct (editorRef s) eqn:He; inv_fields.
    + (* ContainerResized *)
      destruct (observer s) eqn:Ho; [|inv_fields].
      unfold observerCallback. destruct (editorRef s) eqn:He; [inv_fields|].
      exfalso. exact (Hobs eq_refl eq_refl).
    + (* ListFilesSettled *)
      unfold settleListFiles.
      destruct (nth_error (pending s) n) as [[root|origin|contents]|];
        try (inv_fields; fail).
      destruct r; inv_fields.
    + (* LoadBufferSettled *)
      unfold settleLoadBuffer.
      destruct (nth_error (pending s) n) as [[root|[|]|contents]|];
        try (inv_fields; fail); destruct r; inv_fields.
    + (* SaveBufferSettled *)
      unfold settleSaveBuffer.
      destruct (nth_error (pending s) n) as [[root|origin|contents]|];
        try (inv_fields; fail).
      destruct r; inv_fields.
  - destruct HI as [Hside Hlis Hbefore Hobs Hterr Hlay]. rewrite Hm in Hlis.
    destruct (Hbefore Hm) as (Hh & Hr & Ho & Hp).
    destruct e; simpl; rewrite ?Hm; simpl; try (inv_fields; fail).
    (* Mount *)
    unfold mount, observerEffect, resizeEffect, rootEffect, refreshFileList,
      invoke. simpl.
    destruct (editorContainerRef s), (editorRef s) eqn:He; inv_fields.
Qed.

Lemma Inv_reachable (s : State) : reachable s -> Inv s.
Proof.
  intros [events ->]. induction events as [|e events IH] using rev_ind.
  - apply Inv_init.
  - rewrite run_snoc. apply Inv_step, IH.
Qed.

(** ** What a render changes *)

Lemma render_hooks (s : State) : hooks (render s) = hooks s.
Proof.
  unfold render. simpl.
  destruct (String.eqb _ _); simpl; destruct (Bool.eqb _ _); reflexivity.
Qed.

Lemma render_rendered (s : State) : rendered (render s) = hooks s.
Proof.
  unfold render. simpl.
  destruct (String.eqb _ _); simpl; destruct (Bool.eqb _ _); reflexivity.
Qed.

Lemma render_mounted (s : State) : mounted (render s) = mounted s.
Proof.
  unfold render. simpl.
  destruct (String.eqb _ _); simpl; destruct (Bool.eqb _ _); reflexivity.
Qed.

Lemma render_trace (s : State) : trace (render s) = trace s.
Proof.
  unfold render. simpl.
  destruct (String.eqb _ _); simpl; destruct (Bool.eqb _ _); reflexivity.
Qed.

Lemma render_sidebarRef (s : State) : sidebarRef (render s) = sidebarRef s.
Proof.
  unfold render. simpl.
  destruct (String.eqb _ _); simpl; destruct (Bool.eqb _ _); reflexivity.
Qed.

Lemma render_editorRef (s : State) : editorRef (render s) = editorRef s.
Proof.
  unfold render. simpl.
  destruct (String.eqb _ _); simpl; destruct (Bool.eqb _ _); reflexivity.
Qed.

(** A render replaces the window listeners exactly when [isResizing]
    differs from the one of the previous render. *)
Lemma render_listeners (s : State) :
  listeners (render s)
  = if Bool.eqb (isResizing (rendered s)) (isResizing (hooks s))
    then listeners s
    else Some (isResizing (hooks s)).
Proof.
  unfold render, resizeEffect. simpl.
  destruct (String.eqb _ _); simpl; destruct (Bool.eqb _ _); reflexivity.
Qed.

(** A render issues the two requests of the root effect exactly when the
    project root differs from the one of the previous render. *)
Lemma render_pending (s : State) :
  pending (render s)
  = pending s ++
    (if String.eqb (projectRoot (rendered s)) (projectRoot (hooks s))
     then []
     else [ReqListFiles (projectRoot (hooks s)); ReqLoadBuffer FromEffect]).
Proof.
  unfold render, rootEffect, refreshFileList, invoke. simpl.
  destruct (String.eqb _ _); simpl; destruct (Bool.eqb _ _); simpl;
    rewrite ?app_nil_r, <- ?app_assoc; reflexivity.
Qed.

(** Once mounted, always mounted. *)
Lemma step_mounted (e : Event) (s : State) :
  mounted s = true -> mounted (step e s) = true.
Proof.
  intros Hm. destruct e; simpl; rewrite ?Hm; simpl;
    rewrite ?render_mounted; auto.
  - destruct (listeners s) as [captured|]; [|exact Hm]. unfold handleMouseMove.
    destruct captured, (sidebarRef s); simpl; try exact Hm.
    destruct (editorRef s); exact Hm.
  - destruct (listeners s); [|exact Hm]. unfold handleMouseUp. simpl.
    destruct (editorRef s); exact Hm.
  - destruct (observer s); [|exact Hm]. unfold observerCallback.
    destruct (editorRef s); exact Hm.
  - unfold settleListFiles.
    destruct (nth_error (pending s) n) as [[root|origin|contents]|]; auto.
    destruct r; exact Hm.
  - unfold settleLoadBuffer.
    destruct (nth_error (pending s) n) as [[root|[|]|contents]|]; auto;
      destruct r; exact Hm.
  - unfold settleSaveBuffer.
    destruct (nth_error (pending s) n) as [[root|origin|contents]|]; auto.
    destruct r; exact Hm.
Qed.

Lemma dispatch_render (e : Event) (s : State) :
  mounted s = true -> dispatch e s = render (step e s).
Proof.
  intros Hm. unfold dispatch.
  change (step Render (step e s))
    with (if negb (mounted (step e s)) then step e s else render (step e s)).
  rewrite (step_mounted e s Hm). reflexivity.
Qed.

Lemma dispatch_mounted (e : Event) (s : State) :
  mounted s = true -> mounted (dispatch e s) = true.
Proof.
  intros Hm. rewrite (dispatch_render e s Hm), render_mounted.
  apply step_mounted, Hm.
Qed.

(** After a dispatched event the closures read the current state. *)
Lemma dispatch_settled (e : Event) (s : State) :
  mounted s = true -> hooks (dispatch e s) = rendered (dispatch e s).
Proof.
  intros Hm. rewrite (dispatch_render e s Hm), render_hooks, render_rendered.
  reflexivity.
Qed.

(** ** The sidebar *)

Lemma idle_after_pointer_up (s : State) :
  reachable s -> idle (dispatch WindowMouseUp s).
Proof.
  intros Hr. pose proof (Inv_reachable _ Hr) as [_ Hlis Hbefore _ _ _].
  unfold dispatch. simpl. destruct (mounted s) eqn:Hm; simpl.
  - rewrite Hlis. unfold handleMouseUp.
    assert (Hup : forall s1, hooks s1 = hooks (setIsResizing false s) ->
                  rendered s1 = rendered s -> mounted s1 = true ->
                  listeners s1 = Some (isResizing (rendered s)) ->
                  idle (if negb (mounted s1) then s1 else render s1)).
    { intros s1 Hh Hrd Hm1 Hl1. rewrite Hm1. simpl.
      unfold idle. rewrite render_hooks, render_rendered, Hh. simpl.
      repeat split. rewrite render_listeners, Hh, Hrd, Hl1. simpl.
      destruct (isResizing (rendered s)); simpl; discriminate. }
    destruct (editorRef (setIsResizing false s)); apply Hup; auto.
  - rewrite Hm. simpl. destruct (Hbefore eq_refl) as (Hh & Hrd & _).
    unfold idle. rewrite Hh, Hrd, Hlis. repeat split; discriminate.
Qed.

Lemma idle_step (e : Event) (s : State) :
  e <> DragHandleMouseDown -> idle s ->
  idle (step e s) /\ sidebarRef (step e s) = sidebarRef s.
Proof.
  intros He (Hh & Hrd & Hlis). unfold idle.
  destruct e; simpl; try contradiction;
    destruct (mounted s) eqn:Hm; simpl; auto.
  - (* Mount *)
    unfold mount, observerEffect, resizeEffect. simpl.
    destruct (editorContainerRef s), (editorRef s); simpl; rewrite Hrd;
      repeat split; auto; discriminate.
  - (* Render *)
    rewrite render_hooks, render_rendered, render_sidebarRef.
    repeat split; auto. rewrite render_listeners, Hh, Hrd. exact Hlis.
  - (* WindowMouseMove *)
    destruct (listeners s) as [[|]|] eqn:El; [contradiction|..];
      simpl; rewrite El; repeat split; auto; discriminate.
  - (* WindowMouseUp *)
    destruct (listeners s) eqn:El; [|rewrite El; auto].
    unfold handleMouseUp. simpl.
    destruct (editorRef s); simpl; rewrite El; auto.
  - (* ContainerResized *)
    destruct (observer s); [|auto]. unfold observerCallback.
    destruct (editorRef s); simpl; auto.
  - unfold settleListFiles.
    destruct (nth_error (pending s) n) as [[root|origin|contents]|]; auto.
    destruct r; simpl; auto.
  - unfold settleLoadBuffer.
    destruct (nth_error (pending s) n) as [[root|[|]|contents]|]; auto;
      destruct r; simpl; auto.
  - unfold settleSaveBuffer.
    destruct (nth_error (pending s) n) as [[root|origin|contents]|]; auto.
    destruct r; simpl; auto.
Qed.

Lemma idle_run (events : list Event) (s : State) :
  ~ In DragHandleMouseDown events -> idle s ->
  idle (run events s) /\ sidebarRef (run events s) = sidebarRef s.
Proof.
  revert s. induction events as [|e events IH]; intros s Hnot Hidle.
  - split; [assumption|reflexivity].
  - simpl in Hnot. apply Decidable.not_or in Hnot as [He Hrest].
    destruct (idle_step e s) as [Hi Hw]; [congruence|assumption|].
    destruct (IH (step e s) Hrest Hi) as [Hi' Hw'].
    split; [exact Hi'|]. simpl. rewrite Hw'. exact Hw.
Qed.

(** C2: for every pointer x-coordinate [w] of a "mousemove" delivered while
    [isResizing] is true (in the render whose listener receives the event),
    the width applied to the sidebar is [max(150, w)]; a move to x = 80
    gives 150. *)
Theorem pointer_move_clamps_width (events : list Event) (w : Z) :
  isResizing (rendered (run events init)) = true ->
  sidebarWidth (step (WindowMouseMove w) (run events init)) = Some (Z.max 150 w)
  /\ sidebarWidth (step (WindowMouseMove 80) (run events init)) = Some 150%Z.
Proof.
  intros Hres.
  assert (Hr : reachable (run events init)) by (exists events; reflexivity).
  destruct (Inv_reachable _ Hr) as [Hside Hlis Hbefore _ _ _].
  set (s := run events init) in *.
  assert (Hm : mounted s = true).
  { destruct (mounted s) eqn:Hm; [reflexivity|].
    destruct (Hbefore eq_refl) as (_ & Hrd & _).
    rewrite Hrd in Hres. discriminate. }
  rewrite Hm, Hres in Hlis.
  assert (Hmove : forall x,
    sidebarWidth (step (WindowMouseMove x) s) = Some (Z.max 150 x)).
  { intros x. simpl. rewrite Hm, Hlis. simpl. unfold handleMouseMove.
    destruct (sidebarRef s); [|contradiction]. simpl.
    destruct (editorRef s); reflexivity. }
  split; [apply Hmove|apply (Hmove 80%Z)].
Qed.

Lemma pointer_move_clamps_width_witness :
  sidebarWidth
    (step (WindowMouseMove 80) (run [Mount; DragHandleMouseDown; Render] init))
  = Some 150%Z.
Proof.
  apply (pointer_move_clamps_width [Mount; DragHandleMouseDown; Render] 80).
  reflexivity.
Defined.

(** C7 as stated fails: right after the "mouseup" handler has called
    [setIsResizing(false)] the listener installed on the window is still the
    one of the render in which [isResizing] was true, and a "mousemove"
    delivered before React renders moves the sidebar from 420 to 500. *)
Lemma move_before_render_still_resizes :
  isResizing (hooks releasedNotRendered) = false
  /\ sidebarWidth releasedNotRendered = Some 420%Z
  /\ sidebarWidth (step (WindowMouseMove 500) releasedNotRendered) = Some 500%Z
  /\ ~ moves_ignored_after_pointer_up.
Proof.
  split; [reflexivity|]. split; [reflexivity|]. split; [reflexivity|].
  intros H.
  specialize (H [Mount; DragHandleMouseDown; Render; WindowMouseMove 420]
                500%Z eq_refl).
  vm_compute in H. discriminate H.
Qed.

(** C7, amended: a "mousemove" listener whose render has [isResizing] false
    returns at its [!isResizing] test and leaves the width alone; and once
    "mouseup" has set [isResizing] to false and React has rendered that state
    (the [Render] after the handler, which re-runs the effect and replaces the
    listeners), no later event changes the width of the sidebar until the
    drag handle is pressed again; in particular no "mousemove", real or
    synthetic, does. *)
Theorem no_width_change_after_pointer_up (before after : list Event) (w : Z) :
  ~ In DragHandleMouseDown after ->
  (isResizing (rendered (run before init)) = false ->
   sidebarWidth (step (WindowMouseMove w) (run before init))
   = sidebarWidth (run before init))
  /\ isResizing (rendered (step Render (step WindowMouseUp (run before init))))
     = false
  /\ sidebarWidth (run after (step Render (step WindowMouseUp (run before init))))
     = sidebarWidth (step Render (step WindowMouseUp (run before init))).
Proof.
  intros Hafter.
  assert (Hr : reachable (run before init)) by (exists before; reflexivity).
  change (step Render (step WindowMouseUp (run before init)))
    with (dispatch WindowMouseUp (run before init)).
  split; [|split].
  - intros Hres. destruct (Inv_reachable _ Hr) as [_ Hlis _ _ _ _].
    simpl. destruct (mounted (run before init)); simpl; [|reflexivity].
    rewrite Hlis, Hres. reflexivity.
  - apply idle_after_pointer_up, Hr.
  - destruct (idle_run after _ Hafter (idle_after_pointer_up _ Hr)) as [_ Hw].
    unfold sidebarWidth. rewrite Hw. reflexivity.
Qed.

Lemma no_width_change_after_pointer_up_witness :
  sidebarWidth (step (WindowMouseMove 90) (run [Mount; WindowMouseMove 10] init))
  = Some 250%Z
  /\ sidebarWidth
       (run [WindowMouseMove 500; WindowMouseMove 80; Render; WindowMouseMove 300]
          (step Render
             (step WindowMouseUp
                (run [Mount; DragHandleMouseDown; Render; WindowMouseMove 420]
                     init))))
     = Some 420%Z.
Proof.
  assert (Hafter : ~ In DragHandleMouseDown
            [WindowMouseMove 500; WindowMouseMove 80; Render; WindowMouseMove 300]).
  { simpl. intros [H|[H|[H|[H|[]]]]]; discriminate H. }
  split.
  - exact (proj1 (no_width_change_after_pointer_up
             [Mount; WindowMouseMove 10]
             [WindowMouseMove 500; WindowMouseMove 80; Render; WindowMouseMove 300]
             90 Hafter) eq_refl).
  - exact (proj2 (proj2 (no_width_change_after_pointer_up
             [Mount; DragHandleMouseDown; Render; WindowMouseMove 420]
             [WindowMouseMove 500; WindowMouseMove 80; Render; WindowMouseMove 300]
             0 Hafter))).
Defined.

(** ** The editor handle *)

(** C8: the handle is assigned by [onMount] and never cleared, and then no
    reader calls [layout()] through an unset handle: no sequence of events
    produces a TypeError, and while the handle is unset [layout()] has never
    been called and the "mousemove" handler, the "mouseup" handler and the
    observer callback call nothing. *)
Theorem readers_never_call_layout_on_unset_handle (events : list Event) :
  ~ In UncaughtTypeError (trace (run events init))
  /\ (editorRef (run events init) = None ->
      ~ In Layout (trace (run events init))
      /\ forall w,
          trace (step (WindowMouseMove w) (run events init))
            = trace (run events init)
          /\ trace (step WindowMouseUp (run events init))
            = trace (run events init)
          /\ trace (step ContainerResized (run events init))
            = trace (run events init)).
Proof.
  assert (Hr : reachable (run events init)) by (exists events; reflexivity).
  destruct (Inv_reachable _ Hr) as [_ _ _ Hobs Hterr Hlay].
  set (s := run events init) in *.
  split; [exact Hterr|]. intros He. split; [exact (Hlay He)|].
  intros w. simpl. destruct (mounted s); simpl; [|auto].
  repeat split.
  - destruct (listeners s) as [captured|]; [|reflexivity].
    unfold handleMouseMove.
    destruct captured, (sidebarRef s); simpl; rewrite ?He; reflexivity.
  - destruct (listeners s); [|reflexivity].
    unfold handleMouseUp. simpl. rewrite He. reflexivity.
  - destruct (observer s); [|reflexivity].
    exfalso. exact (Hobs eq_refl He).
Qed.

Lemma readers_never_call_layout_on_unset_handle_witness :
  trace (step (WindowMouseMove 300)
           (run [Mount; DragHandleMouseDown; Render] init)) = []
  /\ trace (step WindowMouseUp
           (run [Mount; DragHandleMouseDown; Render] init)) = []
  /\ trace (step ContainerResized
           (run [Mount; DragHandleMouseDown; Render] init)) = [].
Proof.
  exact (proj2 (proj2 (readers_never_call_layout_on_unset_handle
                  [Mount; DragHandleMouseDown; Render]) eq_refl) 300%Z).
Defined.

(** ** Host requests *)

Lemma nth_error_drop_nth_lt {A : Type} (l : list A) (i j : nat) :
  i < j -> nth_error (drop_nth j l) i = nth_error l i.
Proof.
  revert i j. induction l as [|x l IH]; intros i j Hij.
  - destruct j; reflexivity.
  - destruct j as [|j]; [lia|]. destruct i as [|i]; [reflexivity|].
    simpl. apply IH. lia.
Qed.

Lemma nth_error_middle {A : Type} (l r : list A) (x : A) :
  nth_error (l ++ x :: r) (List.length l) = Some x.
Proof. induction l as [|y l IH]; [reflexivity|exact IH]. Qed.

Lemma drop_nth_middle {A : Type} (l r : list A) (x : A) :
  drop_nth (List.length l) (l ++ x :: r) = l ++ r.
Proof. induction l as [|y l IH]; [reflexivity|]. simpl. rewrite IH. reflexivity. Qed.

(** A pending request shows that the effects of the first render have run. *)
Lemma pending_mounted (s : State) (n : nat) (r : Request) :
  reachable s -> nth_error (pending s) n = Some r -> mounted s = true.
Proof.
  intros Hr Hn. destruct (Inv_reachable _ Hr) as [_ _ Hbefore _ _ _].
  destruct (mounted s); [reflexivity|].
  destruct (Hbefore eq_refl) as (_ & _ & _ & Hp).
  rewrite Hp in Hn. destruct n; discriminate.
Qed.

(** The continuation of [refreshFileList] on a settled request. *)
Lemma settle_listing (s : State) (n : nat) (root : string)
    (r : HostResult (list string)) :
  mounted s = true ->
  nth_error (pending s) n = Some (ReqListFiles root) ->
  step (ListFilesSettled n r) s
  = refreshFileListContinuation r (with_pending (drop_nth n (pending s)) s).
Proof.
  intros Hm Hn. simpl. rewrite Hm. simpl. unfold settleListFiles.
  rewrite Hn. reflexivity.
Qed.

(** C5: when the [list_files] call of a refresh resolves, its result
    replaces the file list as a whole; when it rejects, the error is logged
    with [console.error] and the file list stays as it was. *)
Theorem refresh_replaces_on_success_keeps_on_failure
    (s : State) (n : nat) (root : string) (r : HostResult (list string)) :
  mounted s = true ->
  nth_error (pending s) n = Some (ReqListFiles root) ->
  match r with
  | Resolved files =>
      fileList (hooks (step (ListFilesSettled n r) s)) = files
      /\ fileList (rendered (dispatch (ListFilesSettled n r) s)) = files
      /\ trace (dispatch (ListFilesSettled n r) s) = trace s
  | Rejected err =>
      fileList (hooks (step (ListFilesSettled n r) s)) = fileList (hooks s)
      /\ fileList (rendered (dispatch (ListFilesSettled n r) s))
         = fileList (hooks s)
      /\ trace (dispatch (ListFilesSettled n r) s)
         = trace s ++ [ConsoleError "Failed to list files" err]
  end.
Proof.
  intros Hm Hn. rewrite (dispatch_render _ s Hm).
  rewrite (settle_listing s n root r Hm Hn).
  destruct r as [files|err]; simpl;
    rewrite render_rendered, render_trace; auto.
Qed.

Lemma refresh_replaces_on_success_keeps_on_failure_witness :
  fileList (hooks (step (ListFilesSettled 0 (Resolved ["/p/a.rs"; "/p/b.rs"]))
                     (run [Mount] init)))
  = ["/p/a.rs"; "/p/b.rs"].
Proof.
  exact (proj1 (refresh_replaces_on_success_keeps_on_failure
                  (run [Mount] init) 0 "/path/to/project"
                  (Resolved ["/p/a.rs"; "/p/b.rs"]) eq_refl eq_refl)).
Defined.

(** C1 as stated fails: in the race the late answer for the first root
    replaces the list of the newer root "/b", so stale answers are not
    dropped. *)
Lemma late_listing_replaces_newer_one :
  nth_error (pending raceBeforeLateResponse) 0
    = Some (ReqListFiles "/path/to/project")
  /\ projectRoot (rendered raceBeforeLateResponse) = "/b"
  /\ fileList (rendered raceBeforeLateResponse) = ["/b/y.rs"]
  /\ fileList (rendered (dispatch
        (ListFilesSettled 0 (Resolved ["/path/to/project/x.rs"]))
        raceBeforeLateResponse)) = ["/path/to/project/x.rs"]
  /\ ~ stale_listing_discarded.
Proof.
  repeat split; try reflexivity.
  intros H.
  specialize (H [Mount; RootInput "/b"; Render;
                 ListFilesSettled 2 (Resolved ["/b/y.rs"]); Render]
                0 "/path/to/project" ["/path/to/project/x.rs"] eq_refl).
  vm_compute in H.
  assert (Hfiles : ["/path/to/project/x.rs"] = ["/b/y.rs"]).
  { apply H. intros E. discriminate E. }
  discriminate Hfiles.
Qed.

(** C1, amended: requests carry no tag. Every [list_files] response that
    resolves replaces the file list, whatever root it was requested for and
    whatever the current root is; of two outstanding listings the one that
    resolves last is the one displayed. *)
Theorem last_listing_response_wins
    (events : list Event) (i j : nat) (rootA rootB : string)
    (filesA filesB : list string) :
  nth_error (pending (run events init)) i = Some (ReqListFiles rootA) ->
  nth_error (pending (run events init)) j = Some (ReqListFiles rootB) ->
  i < j ->
  fileList (rendered (dispatch (ListFilesSettled j (Resolved filesB))
                        (run events init))) = filesB
  /\ fileList (rendered (dispatch (ListFilesSettled i (Resolved filesA))
                 (dispatch (ListFilesSettled j (Resolved filesB))
                    (run events init)))) = filesA
  /\ projectRoot (rendered (dispatch (ListFilesSettled i (Resolved filesA))
                 (dispatch (ListFilesSettled j (Resolved filesB))
                    (run events init))))
     = projectRoot (hooks (run events init)).
Proof.
  intros Hi Hj Hij.
  assert (Hr : reachable (run events init)) by (exists events; reflexivity).
  pose proof (pending_mounted _ _ _ Hr Hi) as Hm.
  set (s := run events init) in *.
  set (s1 := dispatch (ListFilesSettled j (Resolved filesB)) s).
  assert (Es1 : s1 = render (setFileList filesB
                        (with_pending (drop_nth j (pending s)) s))).
  { unfold s1. rewrite (dispatch_render _ s Hm).
    rewrite (settle_listing s j rootB _ Hm Hj). reflexivity. }
  assert (Hm1 : mounted s1 = true).
  { rewrite Es1, render_mounted. exact Hm. }
  assert (Hi1 : nth_error (pending s1) i = Some (ReqListFiles rootA)).
  { rewrite Es1, render_pending. simpl.
    rewrite nth_error_app1.
    - rewrite nth_error_drop_nth_lt by exact Hij. exact Hi.
    - apply nth_error_Some. rewrite nth_error_drop_nth_lt by exact Hij.
      rewrite Hi. discriminate. }
  split; [|split].
  - rewrite Es1, render_rendered. reflexivity.
  - rewrite (dispatch_render _ s1 Hm1), (settle_listing s1 i rootA _ Hm1 Hi1).
    rewrite render_rendered. reflexivity.
  - rewrite (dispatch_render _ s1 Hm1), (settle_listing s1 i rootA _ Hm1 Hi1).
    rewrite render_rendered. simpl. rewrite Es1, render_hooks. reflexivity.
Qed.

Lemma last_listing_response_wins_witness :
  fileList (rendered
    (dispatch (ListFilesSettled 0 (Resolved ["/path/to/project/x.rs"]))
       (dispatch (ListFilesSettled 2 (Resolved ["/b/y.rs"]))
          (run [Mount; RootInput "/b"; Render] init))))
  = ["/path/to/project/x.rs"].
Proof.
  refine (proj1 (proj2 (last_listing_response_wins
    [Mount; RootInput "/b"; Render] 0 2 "/path/to/project" "/b"
    ["/path/to/project/x.rs"] ["/b/y.rs"] eq_refl eq_refl _))).
  lia.
Defined.

(** ** The buffer *)

(** C4: on the initial mount, when [load_buffer] rejects (whether the
    listing has been answered before or not, and however), the rejection
    only reaches [console.log] and the buffer text stays the placeholder
    ["// Welcome to pIDEstyx IDE!\n"]. *)
Theorem load_rejection_on_mount_keeps_placeholder
    (err : HostError) (listing : HostResult (list string)) :
  placeholder = ("// Welcome to pIDEstyx IDE!" ++ String (ascii_of_nat 10) "")%string
  /\ pending (dispatch Mount init)
     = [ReqListFiles "/path/to/project"; ReqLoadBuffer FromEffect]
  /\ code (rendered (dispatch (LoadBufferSettled 1 (Rejected err))
                       (dispatch Mount init))) = placeholder
  /\ trace (dispatch (LoadBufferSettled 1 (Rejected err)) (dispatch Mount init))
     = [ConsoleLog "No existing buffer found"]
  /\ code (rendered (dispatch (LoadBufferSettled 0 (Rejected err))
                       (dispatch (ListFilesSettled 0 listing)
                          (dispatch Mount init)))) = placeholder
  /\ filter is_console
       (trace (dispatch (LoadBufferSettled 0 (Rejected err))
                 (dispatch (ListFilesSettled 0 listing) (dispatch Mount init))))
     = filter is_console (trace (dispatch (ListFilesSettled 0 listing)
                                   (dispatch Mount init)))
       ++ [ConsoleLog "No existing buffer found"].
Proof.
  repeat split; try reflexivity; destruct listing; reflexivity.
Qed.

(** The continuation of a [load_buffer] call on a settled request. *)
Lemma settle_load (s : State) (n : nat) (origin : LoadOrigin) (contents : string) :
  mounted s = true ->
  nth_error (pending s) n = Some (ReqLoadBuffer origin) ->
  step (LoadBufferSettled n (Resolved contents)) s
  = setCode contents (with_pending (drop_nth n (pending s)) s).
Proof.
  intros Hm Hn. simpl. rewrite Hm. simpl. unfold settleLoadBuffer.
  rewrite Hn. destruct origin; reflexivity.
Qed.

(** A render of a state whose setters have queued nothing new changes
    nothing. *)
Lemma render_settled (s : State) : hooks s = rendered s -> render s = s.
Proof.
  destruct s as [h r e d c m l o p t]. simpl. intros ->.
  unfold render. simpl. rewrite String.eqb_refl, Bool.eqb_reflx. reflexivity.
Qed.

(** C10: the initial mount and every change of the project root issue a
    [list_files] request for the new root and a [load_buffer] request; when
    that [load_buffer] resolves, its text replaces the whole buffer, unsaved
    edits included, and nothing is asked or saved first. *)
Theorem root_change_lists_and_reloads
    (events : list Event) (edited : option string) (root contents : string) :
  mounted (run events init) = true ->
  root <> projectRoot (hooks (run events init)) ->
  pending (dispatch Mount init)
    = [ReqListFiles (projectRoot (rendered init)); ReqLoadBuffer FromEffect]
  /\ code (rendered (dispatch (EditorChange edited) (run events init)))
     = Js.or_empty edited
  /\ pending (dispatch (RootInput root)
                (dispatch (EditorChange edited) (run events init)))
     = pending (dispatch (EditorChange edited) (run events init))
       ++ [ReqListFiles root; ReqLoadBuffer FromEffect]
  /\ code (rendered
       (dispatch (LoadBufferSettled
                    (S (List.length (pending (dispatch (EditorChange edited)
                                               (run events init)))))
                    (Resolved contents))
          (dispatch (RootInput root)
             (dispatch (EditorChange edited) (run events init)))))
     = contents
  /\ trace
       (dispatch (LoadBufferSettled
                    (S (List.length (pending (dispatch (EditorChange edited)
                                               (run events init)))))
                    (Resolved contents))
          (dispatch (RootInput root)
             (dispatch (EditorChange edited) (run events init))))
     = trace (run events init).
Proof.
  intros Hm Hroot. set (s := run events init) in *.
  set (s0 := dispatch (EditorChange edited) s).
  assert (Es0 : s0 = render (handleEditorChange edited s)).
  { unfold s0. rewrite (dispatch_render _ s Hm). simpl. rewrite Hm. reflexivity. }
  assert (Hm0 : mounted s0 = true) by (rewrite Es0, render_mounted; exact Hm).
  assert (Hh0 : hooks s0 = rendered s0).
  { rewrite Es0, render_hooks, render_rendered. reflexivity. }
  assert (Hroot0 : projectRoot (rendered s0) = projectRoot (hooks s)).
  { rewrite Es0, render_rendered. reflexivity. }
  set (s1 := dispatch (RootInput root) s0).
  assert (Es1 : s1 = render (setProjectRoot root s0)).
  { unfold s1. rewrite (dispatch_render _ s0 Hm0). simpl. rewrite Hm0. reflexivity. }
  assert (Hp1 : pending s1
                = pending s0 ++ [ReqListFiles root; ReqLoadBuffer FromEffect]).
  { rewrite Es1, render_pending. simpl. rewrite Hroot0.
    destruct (String.eqb_spec (projectRoot (hooks s)) root) as [E|_];
      [congruence|reflexivity]. }
  assert (Hm1 : mounted s1 = true) by (rewrite Es1, render_mounted; exact Hm0).
  assert (Hn1 : nth_error (pending s1) (S (List.length (pending s0)))
                = Some (ReqLoadBuffer FromEffect)).
  { rewrite Hp1.
    change (pending s0 ++ [ReqListFiles root; ReqLoadBuffer FromEffect])
      with (pending s0 ++ [ReqListFiles root] ++ [ReqLoadBuffer FromEffect]).
    rewrite app_assoc.
    replace (S (List.length (pending s0)))
      with (List.length (pending s0 ++ [ReqListFiles root]))
      by (rewrite length_app; simpl; lia).
    apply nth_error_middle. }
  split; [reflexivity|]. split; [|split; [exact Hp1|]].
  - rewrite Es0, render_rendered. reflexivity.
  - rewrite (dispatch_render _ s1 Hm1).
    rewrite (settle_load s1 _ FromEffect contents Hm1 Hn1).
    rewrite render_rendered, render_trace. simpl.
    split; [reflexivity|].
    rewrite Es1, render_trace. simpl. rewrite Es0, render_trace. reflexivity.
Qed.

Lemma root_change_lists_and_reloads_witness :
  code (rendered
    (dispatch (LoadBufferSettled 2 (Resolved "fn main() {}"))
       (dispatch (RootInput "/b")
          (dispatch (EditorChange (Some "unsaved edit"))
             (run [Mount; ListFilesSettled 0 (Resolved [])] init)))))
  = "fn main() {}".
Proof.
  refine (proj1 (proj2 (proj2 (proj2 (root_change_lists_and_reloads
    [Mount; ListFilesSettled 0 (Resolved [])] (Some "unsaved edit")
    "/b" "fn main() {}" eq_refl _))))).
  simpl. intros E. discriminate E.
Defined.

(** C9 as stated fails: with the edit "draft" on screen and "fn main() {}"
    persisted, Load resolves and Save is clicked before React has rendered
    the loaded text. [handleSave] still closes over the text of the last
    render, sends "draft", and the persisted buffer is overwritten. *)
Lemma save_before_render_sends_old_text :
  code (hooks (fst (Host.loaded draftOnScreen (Some "fn main() {}"))))
    = "fn main() {}"
  /\ nth_error
       (pending (step ClickSave
                   (fst (Host.loaded draftOnScreen (Some "fn main() {}"))))) 2
     = Some (ReqSaveBuffer "draft")
  /\ snd (Host.saved (fst (Host.loaded draftOnScreen (Some "fn main() {}")))
                     (snd (Host.loaded draftOnScreen (Some "fn main() {}"))))
     = Some "draft"
  /\ ~ immediate_round_trip.
Proof.
  split; [reflexivity|]. split; [reflexivity|]. split; [reflexivity|].
  intros H.
  specialize (H [Mount; EditorChange (Some "draft"); Render] "fn main() {}"
                eq_refl).
  vm_compute in H. discriminate H.
Qed.

(** C9, amended: a resolved [load_buffer] replaces the whole buffer text;
    once React has rendered the loaded text (the [Render] between the answer
    and the click), Save with no edit in between sends exactly that text, and
    the persisted buffer of the host is the same before and after. *)
Theorem load_render_save_is_noop_on_host (s : State) (persisted : string) :
  mounted s = true ->
  code (hooks (fst (Host.loaded s (Some persisted)))) = persisted
  /\ snd (Host.loaded s (Some persisted)) = Some persisted
  /\ code (rendered (step Render (fst (Host.loaded s (Some persisted)))))
     = persisted
  /\ pending (step ClickSave
                (step Render (fst (Host.loaded s (Some persisted)))))
     = pending (step Render (fst (Host.loaded s (Some persisted))))
       ++ [ReqSaveBuffer persisted]
  /\ snd (Host.saved (step Render (fst (Host.loaded s (Some persisted))))
                     (snd (Host.loaded s (Some persisted))))
     = Some persisted.
Proof.
  intros Hm.
  assert (Hn : nth_error (pending (step ClickLoad s)) (List.length (pending s))
               = Some (ReqLoadBuffer FromButton)).
  { simpl. rewrite Hm. simpl. apply nth_error_middle. }
  assert (Hm0 : mounted (step ClickLoad s) = true) by (apply step_mounted, Hm).
  set (s1 := step (LoadBufferSettled (List.length (pending s)) (Resolved persisted))
                  (step ClickLoad s)).
  assert (Eload : Host.loaded s (Some persisted) = (s1, Some persisted)).
  { unfold Host.loaded, Host.answer. rewrite Hn. reflexivity. }
  assert (Hm1 : mounted s1 = true) by (apply step_mounted, Hm0).
  assert (Hcode : code (hooks s1) = persisted).
  { unfold s1. rewrite (settle_load _ _ FromButton persisted Hm0 Hn). reflexivity. }
  rewrite Eload. cbn [fst snd].
  set (s2 := step Render s1).
  assert (Es2 : s2 = render s1) by (unfold s2; simpl; rewrite Hm1; reflexivity).
  assert (Hm2 : mounted s2 = true) by (apply step_mounted, Hm1).
  assert (Hrd : code (rendered s2) = persisted).
  { rewrite Es2, render_rendered. exact Hcode. }
  assert (Hp : pending (step ClickSave s2)
               = pending s2 ++ [ReqSaveBuffer persisted]).
  { simpl. rewrite Hm2. simpl. rewrite Hrd. reflexivity. }
  split; [exact Hcode|]. split; [reflexivity|]. split; [exact Hrd|].
  split; [exact Hp|].
  unfold Host.saved, Host.answer. rewrite Hp, nth_error_middle. reflexivity.
Qed.

Lemma load_render_save_is_noop_on_host_witness :
  snd (Host.saved
         (step Render (fst (Host.loaded draftOnScreen (Some "fn main() {}"))))
         (snd (Host.loaded draftOnScreen (Some "fn main() {}"))))
  = Some "fn main() {}".
Proof.
  exact (proj2 (proj2 (proj2 (proj2 (load_render_save_is_noop_on_host
    draftOnScreen "fn main() {}" eq_refl))))).
Defined.

(** [handleSave] of [App] on a rejected [save_buffer]: the text and the other
    requests stay, no request is added, and the rejection is left unhandled. *)
Lemma app_save_failure (s : State) (n : nat) (contents : string) (err : HostError) :
  mounted s = true ->
  nth_error (pending s) n = Some (ReqSaveBuffer contents) ->
  hooks (step (SaveBufferSettled n (Rejected err)) s) = hooks s
  /\ pending (step (SaveBufferSettled n (Rejected err)) s) = drop_nth n (pending s)
  /\ trace (step (SaveBufferSettled n (Rejected err)) s)
     = trace s ++ [UnhandledRejection err].
Proof.
  intros Hm Hn. simpl. rewrite Hm. simpl. unfold settleSaveBuffer.
  rewrite Hn. simpl. auto.
Qed.

(** [handleSave] of the simpler [App] on a rejected [save_buffer]: the
    failure is logged with [console.error], the text and the other requests
    stay, no request is added. *)
Lemma simple_save_failure (s : Simple.State) (n : nat) (contents : string)
    (err : HostError) :
  nth_error (Simple.pending s) n = Some (ReqSaveBuffer contents) ->
  Simple.code (Simple.step (Simple.SaveBufferSettled n (Rejected err)) s)
    = Simple.code s
  /\ Simple.pending (Simple.step (Simple.SaveBufferSettled n (Rejected err)) s)
     = drop_nth n (Simple.pending s)
  /\ Simple.trace (Simple.step (Simple.SaveBufferSettled n (Rejected err)) s)
     = Simple.trace s ++ [ConsoleError "Failed to save" err].
Proof.
  intros Hn. simpl. rewrite Hn. simpl. auto.
Qed.

(** C3 at the failing input: in [App] of [ide-core/ui/src/App.tsx] a
    rejected [save_buffer] is not retried and leaves the buffer text alone,
    but nothing is logged: the rejection escapes [handleSave] unhandled. The
    simpler [App] logs the same failure with [console.error]. *)
Theorem save_failure_is_not_logged (err : HostError) :
  nth_error (pending saveOutstanding) 2 = Some (ReqSaveBuffer placeholder)
  /\ trace (dispatch (SaveBufferSettled 2 (Rejected err)) saveOutstanding)
     = [UnhandledRejection err]
  /\ filter is_console
       (trace (dispatch (SaveBufferSettled 2 (Rejected err)) saveOutstanding))
     = []
  /\ code (rendered (dispatch (SaveBufferSettled 2 (Rejected err)) saveOutstanding))
     = placeholder
  /\ pending (dispatch (SaveBufferSettled 2 (Rejected err)) saveOutstanding)
     = [ReqListFiles "/path/to/project"; ReqLoadBuffer FromEffect]
  /\ Simple.trace
       (Simple.run [Simple.ClickSave; Simple.SaveBufferSettled 0 (Rejected err)]
          Simple.init)
     = [ConsoleError "Failed to save" err].
Proof. repeat split. Qed.

(** ** The file list *)

Lemma map_key_renderFile (files : list string) :
  map key (map renderFile files) = files.
Proof.
  induction files as [|f files IH]; [reflexivity|]. simpl. rewrite IH. reflexivity.
Qed.

(** C6: the sidebar shows one item per path of the host's answer, in the
    host's order; the text of an item is what follows the last "/" of its
    path, and its key is the whole path. For ["/proj/a.rs"; "/proj/sub/b.rs"]
    the names are ["a.rs"; "b.rs"]. *)
Theorem file_items_show_leaf_names_in_host_order
    (s : State) (n : nat) (root : string) (files : list string) :
  mounted s = true ->
  nth_error (pending s) n = Some (ReqListFiles root) ->
  map key (displayedAfterListing s n files) = files
  /\ (forall (i : nat) (dir leaf : string),
        nth_error files i = Some (dir ++ String slash leaf)%string ->
        Js.contains slash leaf = false ->
        nth_error (map label (displayedAfterListing s n files)) i
        = Some (Some leaf))
  /\ (NoDup files -> NoDup (map key (displayedAfterListing s n files)))
  /\ (files = ["/proj/a.rs"; "/proj/sub/b.rs"] ->
      map label (displayedAfterListing s n files) = [Some "a.rs"; Some "b.rs"]).
Proof.
  intros Hm Hn.
  assert (E : displayedAfterListing s n files = map renderFile files).
  { unfold displayedAfterListing, renderFileList.
    rewrite (dispatch_render _ s Hm), (settle_listing s n root _ Hm Hn).
    rewrite render_rendered. reflexivity. }
  rewrite E, map_key_renderFile. repeat split; auto.
  - intros i dir leaf Hi Hleaf. rewrite map_map.
    rewrite (map_nth_error _ _ _ Hi), (leaf_after_last_slash _ _ Hleaf).
    reflexivity.
  - intros ->. reflexivity.
Qed.

Lemma file_items_show_leaf_names_in_host_order_witness :
  map label
    (displayedAfterListing (run [Mount; RootInput "/proj"; Render] init) 2
       ["/proj/a.rs"; "/proj/sub/b.rs"])
  = [Some "a.rs"; Some "b.rs"]
  /\ nth_error
       (map label
          (displayedAfterListing (run [Mount; RootInput "/proj"; Render] init) 2
             ["/proj/a.rs"; "/proj/sub/b.rs"])) 1
     = Some (Some "b.rs")
  /\ NoDup (map key
       (displayedAfterListing (run [Mount; RootInput "/proj"; Render] init) 2
          ["/proj/a.rs"; "/proj/sub/b.rs"])).
Proof.
  pose proof (file_items_show_leaf_names_in_host_order
    (run [Mount; RootInput "/proj"; Render] init) 2 "/proj"
    ["/proj/a.rs"; "/proj/sub/b.rs"] eq_refl eq_refl) as (_ & Hleaf & Hkeys & Hex).
  split; [|split].
  - exact (Hex eq_refl).
  - exact (Hleaf 1 "/proj/sub" "b.rs" eq_refl eq_refl).
  - apply Hkeys. repeat constructor; simpl; intuition discriminate.
Defined.

(** * Further properties of the component *)

(** ** What one event can change *)

Ltac step_cases s :=
  simpl; destruct (mounted s) eqn:?; simpl;
  unfold settleListFiles, settleLoadBuffer, settleSaveBuffer,
    handleMouseMove, handleMouseUp, observerCallback, mount, observerEffect,
    refreshFileListContinuation, loadOnRootContinuation,
    handleLoadContinuation, handleSaveContinuation;
  simpl;
  repeat match goal with
         | |- context [match ?x with _ => _ end] => destruct x eqn:?; simpl
         end.

(** The width of the sidebar is written by "mousemove" only, and then with
    a clamped value. *)
Lemma step_sidebarRef (e : Event) (s : State) :
  sidebarRef (step e s) = sidebarRef s
  \/ exists x, e = WindowMouseMove x
               /\ sidebarRef (step e s) = Some {| widthPx := Z.max 150 x |}.
Proof.
  destruct e;
    try (left; step_cases s; rewrite ?render_sidebarRef;
         first [reflexivity|congruence]).
  simpl. destruct (mounted s); simpl; [|left; reflexivity].
  destruct (listeners s) as [[|]|]; try (left; reflexivity).
  unfold handleMouseMove.
  destruct (sidebarRef s) eqn:Es; [|left; simpl; congruence].
  right. exists clientX. split; [reflexivity|].
  simpl. destruct (editorRef s); reflexivity.
Qed.

(** The handle is written by [onMount] only. *)
Lemma step_editorRef (e : Event) (s : State) :
  e <> EditorMounted -> editorRef (step e s) = editorRef s.
Proof.
  intros He. destruct e; try contradiction;
    step_cases s; rewrite ?render_editorRef; first [reflexivity|congruence].
Qed.

Lemma step_editorRef_set (e : Event) (s : State) :
  editorRef s <> None -> editorRef (step e s) <> None.
Proof.
  intros Hs. destruct e; try (rewrite step_editorRef by discriminate; exact Hs).
  simpl. discriminate.
Qed.

Lemma render_observer (s : State) : observer (render s) = observer s.
Proof.
  unfold render. simpl.
  destruct (String.eqb _ _); simpl; destruct (Bool.eqb _ _); reflexivity.
Qed.

Lemma render_editorContainerRef (s : State) :
  editorContainerRef (render s) = editorContainerRef s.
Proof.
  unfold render. simpl.
  destruct (String.eqb _ _); simpl; destruct (Bool.eqb _ _); reflexivity.
Qed.

(** The observer is created by the effects of the first render or never. *)
Lemma step_observer (e : Event) (s : State) :
  e <> Mount \/ mounted s = true -> observer (step e s) = observer s.
Proof.
  intros [He|Hm].
  - destruct e; try contradiction;
      step_cases s; rewrite ?render_observer; first [reflexivity|congruence].
  - destruct e; simpl; rewrite ?Hm; simpl; rewrite ?render_observer;
      try reflexivity; step_cases s; first [reflexivity|congruence].
Qed.

Lemma step_editorContainerRef (e : Event) (s : State) :
  editorContainerRef (step e s) = editorContainerRef s.
Proof.
  destruct e; step_cases s; rewrite ?render_editorContainerRef;
    first [reflexivity|congruence].
Qed.

Lemma run_mounted (events : list Event) (s : State) :
  mounted s = true -> mounted (run events s) = true.
Proof.
  revert s. induction events as [|e events IH]; intros s Hm; [exact Hm|].
  simpl. apply IH, step_mounted, Hm.
Qed.

(** ** The sidebar and the editor layout *)

(** X1: in every state the component can reach, the sidebar is attached and
    its width is at least 150 pixels: it starts at 250 and every write is
    clamped. *)
Theorem sidebar_width_never_below_minimum (events : list Event) :
  exists w, sidebarWidth (run events init) = Some w /\ (150 <= w)%Z.
Proof.
  induction events as [|e events IH] using rev_ind.
  - exists 250%Z. split; [reflexivity|lia].
  - rewrite run_snoc. destruct IH as (w & Hw & Hle).
    destruct (step_sidebarRef e (run events init)) as [E|(x & _ & E)].
    + exists w. unfold sidebarWidth in *. rewrite E. auto.
    + exists (Z.max 150 x). unfold sidebarWidth. rewrite E. split; [reflexivity|lia].
Qed.

(** X2: with the editor mounted, every "mousemove" received while a drag
    is rendered calls [layout()] exactly once after writing the width, and
    every "mouseup" on the window, drag or no drag, calls it exactly
    once. *)
Theorem layout_follows_every_move_and_release (events : list Event) (w : Z) :
  mounted (run events init) = true ->
  editorRef (run events init) <> None ->
  trace (step WindowMouseUp (run events init))
    = trace (run events init) ++ [Layout]
  /\ (isResizing (rendered (run events init)) = true ->
      trace (step (WindowMouseMove w) (run events init))
        = trace (run events init) ++ [Layout]).
Proof.
  intros Hm He.
  assert (Hr : reachable (run events init)) by (exists events; reflexivity).
  destruct (Inv_reachable _ Hr) as [Hside Hlis _ _ _ _].
  set (s := run events init) in *. rewrite Hm in Hlis.
  split.
  - simpl. rewrite Hm, Hlis. simpl. unfold handleMouseUp. simpl.
    destruct (editorRef s); [reflexivity|contradiction].
  - intros Hres. simpl. rewrite Hm, Hlis, Hres. simpl. unfold handleMouseMove.
    destruct (sidebarRef s); [|contradiction]. simpl.
    destruct (editorRef s); [reflexivity|contradiction].
Qed.

Lemma layout_follows_every_move_and_release_witness :
  trace (step WindowMouseUp
           (run [Mount; EditorMounted; DragHandleMouseDown; Render] init))
    = [Layout; Layout]
  /\ trace (step (WindowMouseMove 200)
           (run [Mount; EditorMounted; DragHandleMouseDown; Render] init))
    = [Layout; Layout].
Proof.
  assert (He : editorRef (run [Mount; EditorMounted; DragHandleMouseDown; Render]
                            init) <> None) by (simpl; discriminate).
  pose proof (layout_follows_every_move_and_release
    [Mount; EditorMounted; DragHandleMouseDown; Render] 200 eq_refl He)
    as [Hup Hmove].
  split; [exact Hup|exact (Hmove eq_refl)].
Defined.

Lemma dragging_after_pointer_down (s : State) :
  reachable s -> mounted s = true -> dragging (dispatch DragHandleMouseDown s).
Proof.
  intros Hr Hm. destruct (Inv_reachable _ Hr) as [Hside Hlis _ _ _ _].
  rewrite Hm in Hlis. rewrite (dispatch_render _ s Hm). simpl. rewrite Hm. simpl.
  unfold dragging.
  rewrite render_mounted, render_hooks, render_rendered, render_listeners,
    render_sidebarRef. simpl. rewrite Hlis.
  repeat split; auto. destruct (isResizing (rendered s)); reflexivity.
Qed.

Lemma dragging_move (x : Z) (s : State) :
  dragging s ->
  dragging (dispatch (WindowMouseMove x) s)
  /\ sidebarWidth (dispatch (WindowMouseMove x) s) = Some (Z.max 150 x).
Proof.
  intros (Hm & Hh & Hrd & Hlis & Hside).
  rewrite (dispatch_render _ s Hm). simpl. rewrite Hm, Hlis. simpl.
  unfold handleMouseMove, dragging, sidebarWidth.
  destruct (sidebarRef s); [|contradiction].
  rewrite render_mounted, render_hooks, render_rendered, render_listeners,
    render_sidebarRef.
  simpl. destruct (editorRef s); simpl; rewrite Hm, Hh, Hrd, Hlis;
    repeat split; auto; discriminate.
Qed.

Lemma dragThrough_snoc (xs : list Z) (x : Z) (s : State) :
  dragThrough (xs ++ [x]) s = dispatch (WindowMouseMove x) (dragThrough xs s).
Proof. unfold dragThrough. rewrite fold_left_app. reflexivity. Qed.

Lemma dragging_dragThrough (xs : list Z) (s : State) :
  reachable s -> mounted s = true -> dragging (dragThrough xs s).
Proof.
  intros Hr Hm. induction xs as [|x xs IH] using rev_ind.
  - apply dragging_after_pointer_down; assumption.
  - rewrite dragThrough_snoc. apply dragging_move, IH.
Qed.

(** X3: a whole drag. From any mounted state, pressing the handle, moving
    through any x-coordinates and releasing leaves the sidebar at
    [max(150, x)] for the last coordinate [x], with [isResizing] false
    again. *)
Theorem drag_ends_at_last_clamped_coordinate
    (events : list Event) (xs : list Z) (x : Z) :
  mounted (run events init) = true ->
  sidebarWidth (dispatch WindowMouseUp (dragThrough (xs ++ [x]) (run events init)))
    = Some (Z.max 150 x)
  /\ isResizing (rendered (dispatch WindowMouseUp
                             (dragThrough (xs ++ [x]) (run events init))))
     = false.
Proof.
  intros Hm.
  assert (Hr : reachable (run events init)) by (exists events; reflexivity).
  pose proof (dragging_dragThrough xs _ Hr Hm) as Hdrag.
  rewrite dragThrough_snoc.
  destruct (dragging_move x _ Hdrag) as [(Hm1 & _ & _ & Hlis1 & _) Hw].
  set (s1 := dispatch (WindowMouseMove x) (dragThrough xs (run events init))) in *.
  rewrite (dispatch_render _ s1 Hm1). simpl. rewrite Hm1, Hlis1. simpl.
  unfold sidebarWidth in *. rewrite render_sidebarRef, render_rendered.
  unfold handleMouseUp. simpl. destruct (editorRef s1); simpl; auto.
Qed.

Lemma drag_ends_at_last_clamped_coordinate_witness :
  sidebarWidth (dispatch WindowMouseUp
                  (dragThrough ([400; 90] ++ [310])%Z (run [Mount] init)))
  = Some 310%Z.
Proof.
  exact (proj1 (drag_ends_at_last_clamped_coordinate [Mount] [400; 90]%Z 310
                  eq_refl)).
Defined.

(** ** The ResizeObserver *)

Lemma run_cons (e : Event) (events : list Event) (s : State) :
  run (e :: events) s = run events (step e s).
Proof. reflexivity. Qed.

Lemma run_observer_mounted (events : list Event) (s : State) :
  mounted s = true -> observer (run events s) = observer s.
Proof.
  revert s. induction events as [|e events IH]; intros s Hm; [reflexivity|].
  simpl. rewrite IH by (apply step_mounted, Hm).
  apply step_observer. right. exact Hm.
Qed.

Lemma before_editor_mounts (events : list Event) :
  ~ In EditorMounted events ->
  editorRef (run events init) = None /\ observer (run events init) = false.
Proof.
  induction events as [|e events IH] using rev_ind; intros Hnot.
  - split; reflexivity.
  - rewrite run_snoc.
    assert (He : e <> EditorMounted).
    { intros ->. apply Hnot, in_or_app. right. left. reflexivity. }
    destruct IH as [Hed Hobs].
    { intros H. apply Hnot, in_or_app. left. exact H. }
    rewrite (step_editorRef e _ He). split; [exact Hed|].
    destruct e; try (rewrite step_observer by (left; discriminate); exact Hobs).
    simpl. destruct (mounted (run events init)); [exact Hobs|].
    unfold mount, observerEffect. simpl. rewrite Hed.
    destruct (editorContainerRef (run events init)); exact Hobs.
Qed.

Lemma before_mount (events : list Event) :
  ~ In Mount events ->
  mounted (run events init) = false
  /\ editorContainerRef (run events init) = true.
Proof.
  induction events as [|e events IH] using rev_ind; intros Hnot.
  - split; reflexivity.
  - rewrite run_snoc, step_editorContainerRef.
    destruct IH as [Hm Hc].
    { intros H. apply Hnot, in_or_app. left. exact H. }
    split; [|exact Hc].
    destruct e; [exfalso; apply Hnot, in_or_app; right; left; reflexivity|..];
      simpl; rewrite ?Hm; simpl; first [reflexivity|exact Hm].
Qed.

Lemma run_editorRef_set (events : list Event) (s : State) :
  editorRef s <> None -> editorRef (run events s) <> None.
Proof.
  revert s. induction events as [|e events IH]; intros s Hs; [exact Hs|].
  simpl. apply IH, step_editorRef_set, Hs.
Qed.

(** X4: when the editor has not called [onMount] by the time the effects
    of the first render run, the ResizeObserver is never created, whatever
    happens afterwards: a resize of the container calls nothing. *)
Theorem observer_missing_when_editor_mounts_late (before after : list Event) :
  ~ In EditorMounted before ->
  observer (run (before ++ Mount :: after) init) = false
  /\ step ContainerResized (run (before ++ Mount :: after) init)
     = run (before ++ Mount :: after) init.
Proof.
  intros Hnot. destruct (before_editor_mounts before Hnot) as [Hed Hobs].
  assert (Hm1 : mounted (step Mount (run before init)) = true).
  { simpl. destruct (mounted (run before init)) eqn:Hm; [exact Hm|].
    unfold mount, observerEffect. simpl.
    destruct (editorContainerRef _), (editorRef _); reflexivity. }
  assert (Ho1 : observer (step Mount (run before init)) = false).
  { simpl. destruct (mounted (run before init)); [exact Hobs|].
    unfold mount, observerEffect. simpl. rewrite Hed.
    destruct (editorContainerRef _); exact Hobs. }
  assert (Ho : observer (run (before ++ Mount :: after) init) = false).
  { rewrite run_app, run_cons, (run_observer_mounted after _ Hm1). exact Ho1. }
  split; [exact Ho|].
  simpl. rewrite Ho.
  destruct (mounted (run (before ++ Mount :: after) init)); reflexivity.
Qed.

Lemma observer_missing_when_editor_mounts_late_witness :
  step ContainerResized
    (run ([] ++ Mount :: [EditorMounted; DragHandleMouseDown; Render]) init)
  = run ([] ++ Mount :: [EditorMounted; DragHandleMouseDown; Render]) init.
Proof.
  refine (proj2 (observer_missing_when_editor_mounts_late
                   [] [EditorMounted; DragHandleMouseDown; Render] _)).
  simpl. intros [].
Defined.

(** X5: when the editor has called [onMount] before the effects of the
    first render run, the ResizeObserver is observing from then on, and
    every resize of the container calls [layout()] exactly once. *)
Theorem observer_relayouts_when_editor_mounts_first (before after : list Event) :
  In EditorMounted before ->
  ~ In Mount before ->
  observer (run (before ++ Mount :: after) init) = true
  /\ trace (step ContainerResized (run (before ++ Mount :: after) init))
     = trace (run (before ++ Mount :: after) init) ++ [Layout].
Proof.
  intros Hed Hnot. destruct (before_mount before Hnot) as [Hm Hc].
  assert (He : editorRef (run before init) <> None).
  { apply in_split in Hed as (l1 & l2 & ->).
    rewrite run_app, run_cons. apply run_editorRef_set. simpl. discriminate. }
  assert (Hm1 : mounted (step Mount (run before init)) = true).
  { simpl. rewrite Hm. unfold mount, observerEffect. simpl.
    destruct (editorContainerRef _), (editorRef _); reflexivity. }
  assert (Ho1 : observer (step Mount (run before init)) = true).
  { simpl. rewrite Hm. unfold mount, observerEffect. simpl. rewrite Hc.
    destruct (editorRef (run before init)); [reflexivity|contradiction]. }
  assert (He1 : editorRef (run (before ++ Mount :: after) init) <> None).
  { rewrite run_app. apply run_editorRef_set. exact He. }
  assert (Ho : observer (run (before ++ Mount :: after) init) = true).
  { rewrite run_app, run_cons, (run_observer_mounted after _ Hm1). exact Ho1. }
  split; [exact Ho|].
  simpl. rewrite Ho.
  assert (Hmf : mounted (run (before ++ Mount :: after) init) = true).
  { rewrite run_app, run_cons. apply run_mounted, Hm1. }
  rewrite Hmf. simpl. unfold observerCallback.
  destruct (editorRef (run (before ++ Mount :: after) init));
    [reflexivity|contradiction].
Qed.

Lemma observer_relayouts_when_editor_mounts_first_witness :
  trace (step ContainerResized
           (run ([EditorMounted] ++ Mount :: [DragHandleMouseDown; Render]) init))
  = [Layout; Layout].
Proof.
  refine (proj2 (observer_relayouts_when_editor_mounts_first
                   [EditorMounted] [DragHandleMouseDown; Render] _ _)).
  - left. reflexivity.
  - simpl. intros [H|[]]. discriminate H.
Defined.

(** ** Requests and the buffer *)

Lemma Forall_drop_nth {A : Type} (P : A -> Prop) (n : nat) (l : list A) :
  Forall P l -> Forall P (drop_nth n l).
Proof.
  revert n. induction l as [|x l IH]; intros n H; [destruct n; exact H|].
  inversion H; subst. destruct n; simpl; auto.
Qed.

Lemma step_keeps_saves_out (e : Event) (s : State) :
  e <> ClickSave ->
  Forall (fun r => is_save r = false) (pending s) ->
  Forall (fun r => is_save r = false) (pending (step e s)).
Proof.
  intros He H. destruct e; try contradiction;
    step_cases s; rewrite ?render_pending; simpl;
    rewrite ?Forall_app; repeat split;
    auto using Forall_drop_nth;
    try (destruct (String.eqb _ _)); repeat constructor.
Qed.

(** X6: there is no automatic save. Whatever happens (edits, root changes,
    loads, drags), as long as the Save button is not clicked no
    [save_buffer] request is outstanding. *)
Theorem no_save_request_without_click (events : list Event) :
  ~ In ClickSave events ->
  Forall (fun r => is_save r = false) (pending (run events init)).
Proof.
  induction events as [|e events IH] using rev_ind; intros Hnot.
  - constructor.
  - rewrite run_snoc. apply step_keeps_saves_out.
    + intros ->. apply Hnot, in_or_app. right. left. reflexivity.
    + apply IH. intros H. apply Hnot, in_or_app. left. exact H.
Qed.

Lemma no_save_request_without_click_witness :
  Forall (fun r => is_save r = false)
    (pending (run [Mount; EditorChange (Some "x"); Render; RootInput "/b"; Render;
                   ClickLoad] init)).
Proof.
  apply no_save_request_without_click.
  simpl. intros [H|[H|[H|[H|[H|[H|[]]]]]]]; discriminate H.
Defined.

(** X7: Save sends the text of the last rendered edit, the empty string
    when the editor reported [undefined]; an edit made after the click
    changes the buffer but not the request already sent. *)
Theorem save_sends_the_rendered_edit (s : State) (value later : option string) :
  mounted s = true ->
  pending (dispatch ClickSave (dispatch (EditorChange value) s))
    = pending (dispatch (EditorChange value) s)
      ++ [ReqSaveBuffer (Js.or_empty value)]
  /\ pending (dispatch (EditorChange later)
                (dispatch ClickSave (dispatch (EditorChange value) s)))
     = pending (dispatch (EditorChange value) s)
       ++ [ReqSaveBuffer (Js.or_empty value)]
  /\ code (rendered (dispatch (EditorChange later)
                       (dispatch ClickSave (dispatch (EditorChange value) s))))
     = Js.or_empty later.
Proof.
  intros Hm. set (s0 := dispatch (EditorChange value) s).
  assert (Hm0 : mounted s0 = true) by (apply dispatch_mounted, Hm).
  assert (Hset : hooks s0 = rendered s0) by (apply dispatch_settled, Hm).
  assert (Hcode : code (rendered s0) = Js.or_empty value).
  { unfold s0. rewrite (dispatch_render _ s Hm), render_rendered.
    simpl. rewrite Hm. reflexivity. }
  assert (Esave : dispatch ClickSave s0 = handleSave s0).
  { rewrite (dispatch_render _ s0 Hm0). simpl. rewrite Hm0. simpl.
    apply render_settled. exact Hset. }
  rewrite Esave.
  assert (Hp : pending (handleSave s0)
               = pending s0 ++ [ReqSaveBuffer (Js.or_empty value)]).
  { unfold handleSave. simpl. rewrite Hcode. reflexivity. }
  split; [exact Hp|].
  assert (Hm2 : mounted (handleSave s0) = true) by exact Hm0.
  rewrite (dispatch_render _ _ Hm2). simpl step. rewrite Hm0. simpl negb. cbv iota.
  rewrite render_pending, render_rendered. simpl. rewrite Hset, String.eqb_refl.
  rewrite app_nil_r, <- Hset, Hset, Hcode. auto.
Qed.

Lemma save_sends_the_rendered_edit_witness :
  pending (dispatch (EditorChange (Some "later"))
             (dispatch ClickSave (dispatch (EditorChange None) (run [Mount] init))))
  = pending (dispatch (EditorChange None) (run [Mount] init))
    ++ [ReqSaveBuffer ""].
Proof.
  exact (proj1 (proj2 (save_sends_the_rendered_edit (run [Mount] init) None
                         (Some "later") eq_refl))).
Defined.

(** X8: typing in the root input issues host requests exactly when the
    value differs from the rendered root: the same value issues none. *)
Theorem root_input_requests_iff_root_changes (s : State) (value : string) :
  mounted s = true ->
  hooks s = rendered s ->
  pending (dispatch (RootInput value) s) = pending s
  <-> value = projectRoot (rendered s).
Proof.
  intros Hm Hset.
  rewrite (dispatch_render _ s Hm). simpl step. rewrite Hm. simpl negb. cbv iota.
  rewrite render_pending. simpl.
  destruct (String.eqb_spec (projectRoot (rendered s)) value) as [E|E].
  - rewrite app_nil_r. split; auto.
  - split; [|congruence]. intros H.
    apply (f_equal (@List.length Request)) in H.
    rewrite length_app in H. simpl in H. lia.
Qed.

Lemma root_input_requests_iff_root_changes_witness :
  pending (dispatch (RootInput "/path/to/project") (run [Mount] init))
  = pending (run [Mount] init).
Proof.
  apply (root_input_requests_iff_root_changes (run [Mount] init)
           "/path/to/project" eq_refl eq_refl).
  reflexivity.
Defined.

(** X9: the Load button. A resolved [load_buffer] replaces the text and
    nothing else; a rejected one leaves the whole state as it was and is not
    logged: the rejection escapes [handleLoad] unhandled. Either way the
    request is no longer outstanding. *)
Theorem load_button_outcomes (s : State) (n : nat) (r : HostResult string) :
  mounted s = true ->
  nth_error (pending s) n = Some (ReqLoadBuffer FromButton) ->
  pending (step (LoadBufferSettled n r) s) = drop_nth n (pending s)
  /\ match r with
     | Resolved contents =>
         hooks (step (LoadBufferSettled n r) s)
         = mkSnapshot contents (projectRoot (hooks s)) (fileList (hooks s))
                      (isResizing (hooks s))
         /\ trace (step (LoadBufferSettled n r) s) = trace s
     | Rejected err =>
         hooks (step (LoadBufferSettled n r) s) = hooks s
         /\ trace (step (LoadBufferSettled n r) s)
            = trace s ++ [UnhandledRejection err]
     end.
Proof.
  intros Hm Hn. simpl. rewrite Hm. simpl. unfold settleLoadBuffer. rewrite Hn.
  destruct r; simpl; auto.
Qed.

Lemma load_button_outcomes_witness :
  trace (step (LoadBufferSettled 2 (Rejected "NotFound"))
           (run [Mount; ClickLoad] init))
  = [UnhandledRejection "NotFound"].
Proof.
  exact (proj2 (proj2 (load_button_outcomes (run [Mount; ClickLoad] init) 2
                         (Rejected "NotFound") eq_refl eq_refl))).
Defined.

(** X10: each part of the state has its own writers. The buffer text is
    set only by an editor change or a settled [load_buffer]; the file list
    only by a settled [list_files]; the project root only by the root input;
    the sidebar width only by a "mousemove". Saving, listing failures,
    renders and everything else leave them alone. *)
Theorem state_is_written_only_by_its_own_events (e : Event) (s : State) :
  (sets_code e = false -> code (hooks (step e s)) = code (hooks s))
  /\ (sets_fileList e = false -> fileList (hooks (step e s)) = fileList (hooks s))
  /\ (sets_projectRoot e = false ->
      projectRoot (hooks (step e s)) = projectRoot (hooks s))
  /\ (sets_width e = false -> sidebarWidth (step e s) = sidebarWidth s).
Proof.
  repeat split; intros He; unfold sidebarWidth;
    destruct e; try discriminate He;
    step_cases s; rewrite ?render_hooks, ?render_sidebarRef;
    first [reflexivity|congruence].
Qed.

Lemma state_is_written_only_by_its_own_events_witness :
  code (hooks (step (SaveBufferSettled 2 (Rejected "disk full")) saveOutstanding))
    = code (hooks saveOutstanding)
  /\ fileList (hooks (step (LoadBufferSettled 1 (Resolved "text")) saveOutstanding))
    = fileList (hooks saveOutstanding)
  /\ projectRoot (hooks (step (EditorChange None) saveOutstanding))
    = projectRoot (hooks saveOutstanding)
  /\ sidebarWidth (step DragHandleMouseDown saveOutstanding)
    = sidebarWidth saveOutstanding.
Proof.
  split; [|split; [|split]].
  - exact (proj1 (state_is_written_only_by_its_own_events
             (SaveBufferSettled 2 (Rejected "disk full")) saveOutstanding) eq_refl).
  - exact (proj1 (proj2 (state_is_written_only_by_its_own_events
             (LoadBufferSettled 1 (Resolved "text")) saveOutstanding)) eq_refl).
  - exact (proj1 (proj2 (proj2 (state_is_written_only_by_its_own_events
             (EditorChange None) saveOutstanding))) eq_refl).
  - exact (proj2 (proj2 (proj2 (state_is_written_only_by_its_own_events
             DragHandleMouseDown saveOutstanding))) eq_refl).
Defined.

(** ** Leaf names *)

Lemma split_leaf (sep : ascii) (s : string) :
  exists leaf,
    Js.pop (Js.split sep s) = Some leaf
    /\ Js.contains sep leaf = false
    /\ (s = leaf \/ exists dir, s = (dir ++ String sep leaf)%string).
Proof.
  induction s as [|c rest (leaf & Hpop & Hleaf & Hshape)].
  - exists EmptyString. repeat split. left. reflexivity.
  - simpl. destruct (Ascii.eqb c sep) eqn:Ec.
    + apply Ascii.eqb_eq in Ec. subst c. exists leaf. split; [|split; [exact Hleaf|]].
      * destruct (Js.split sep rest) eqn:E; [discriminate Hpop|exact Hpop].
      * right. destruct Hshape as [->|(dir & ->)].
        -- exists EmptyString. reflexivity.
        -- exists (String sep dir). reflexivity.
    + destruct Hshape as [->|(dir & ->)].
      * rewrite (split_no_sep _ _ Hleaf). exists (String c leaf).
        repeat split; [simpl; rewrite Ec, Hleaf; reflexivity|left; reflexivity].
      * rewrite split_at_sep in *.
        destruct (Js.split sep dir) as [|piece pieces] eqn:Ed;
          [exfalso; exact (split_not_nil _ _ Ed)|].
        exists leaf. split; [|split; [exact Hleaf|]].
        -- change (Js.pop ((String c piece :: pieces) ++ Js.split sep leaf)
                   = Some leaf).
           rewrite pop_app by apply split_not_nil.
           rewrite pop_app in Hpop by apply split_not_nil. exact Hpop.
        -- right. exists (String c dir). reflexivity.
Qed.

(** X11: every path gets a name: [pop()] is never [undefined] here. The
    name contains no "/", and the path is either the name itself or some
    directory part, a "/" and the name; a path that ends in "/" is shown
    with an empty name. *)
Theorem every_path_has_a_leaf_name (path dir : string) :
  (exists leaf,
     label (renderFile path) = Some leaf
     /\ Js.contains slash leaf = false
     /\ (path = leaf \/ exists parent, path = (parent ++ String slash leaf)%string))
  /\ label (renderFile (dir ++ "/")%string) = Some EmptyString
  /\ key (renderFile path) = path.
Proof.
  split; [exact (split_leaf slash path)|]. split; [|reflexivity].
  apply (leaf_after_last_slash dir EmptyString). reflexivity.
Qed.

(** ** The simpler component *)

Lemma simple_run_snoc (events : list Simple.Event) (e : Simple.Event)
    (s : Simple.State) :
  Simple.run (events ++ [e]) s = Simple.step e (Simple.run events s).
Proof. unfold Simple.run. rewrite fold_left_app. reflexivity. Qed.

(** X12: the simpler [App] reports every outcome of a save: each settled
    [save_buffer] adds exactly one console line ("Saved successfully" or
    "Failed to save" with the error), the text is not touched, and no
    rejection is ever left unhandled: its trace holds console lines only. *)
Theorem simple_app_reports_every_save_outcome
    (events : list Simple.Event) (n : nat) (contents : string)
    (r : HostResult unit) :
  Forall (fun e => is_console e = true)
         (Simple.trace (Simple.run events Simple.init))
  /\ (nth_error (Simple.pending (Simple.run events Simple.init)) n
        = Some (ReqSaveBuffer contents) ->
      Simple.trace (Simple.step (Simple.SaveBufferSettled n r)
                      (Simple.run events Simple.init))
      = Simple.trace (Simple.run events Simple.init)
        ++ [match r with
            | Resolved _ => ConsoleLog "Saved successfully"
            | Rejected err => ConsoleError "Failed to save" err
            end]
      /\ Simple.code (Simple.step (Simple.SaveBufferSettled n r)
                        (Simple.run events Simple.init))
         = Simple.code (Simple.run events Simple.init)).
Proof.
  split.
  - induction events as [|e events IH] using rev_ind; [constructor|].
    rewrite simple_run_snoc. destruct e; simpl; auto.
    destruct (nth_error _ n0) as [[root|origin|saved]|]; auto.
    destruct r0; simpl; apply Forall_app; split; auto; repeat constructor.
  - intros Hn. simpl. rewrite Hn. destruct r; simpl; auto.
Qed.

Lemma simple_app_reports_every_save_outcome_witness :
  Simple.trace
    (Simple.step (Simple.SaveBufferSettled 0 (Resolved tt))
       (Simple.run [Simple.EditorChange (Some "x"); Simple.Render; Simple.ClickSave]
          Simple.init))
  = [ConsoleLog "Saved successfully"].
Proof.
  exact (proj1 (proj2 (simple_app_reports_every_save_outcome
    [Simple.EditorChange (Some "x"); Simple.Render; Simple.ClickSave]
    0 "x" (Resolved tt)) eq_refl)).
Defined.

(** X13: in the simpler [App] edits alone never reach the host: without a
    click on Save no request is outstanding; and a click after a rendered
    edit sends exactly that edit (the empty string for [undefined]). *)
Theorem simple_app_saves_only_on_click
    (events : list Simple.Event) (value : option string) :
  ~ In Simple.ClickSave events ->
  Simple.pending (Simple.run events Simple.init) = []
  /\ Simple.pending
       (Simple.run (events ++ [Simple.EditorChange value; Simple.Render;
                               Simple.ClickSave]) Simple.init)
     = [ReqSaveBuffer (Js.or_empty value)].
Proof.
  intros Hnot.
  assert (Hp : Simple.pending (Simple.run events Simple.init) = []).
  { induction events as [|e events IH] using rev_ind; [reflexivity|].
    rewrite simple_run_snoc.
    assert (IH' : Simple.pending (Simple.run events Simple.init) = []).
    { apply IH. intros H. apply Hnot, in_or_app. left. exact H. }
    destruct e; simpl; auto.
    - exfalso. apply Hnot, in_or_app. right. left. reflexivity.
    - rewrite IH'. destruct n; exact IH'. }
  split; [exact Hp|].
  unfold Simple.run. rewrite fold_left_app. simpl. 
  fold (Simple.run events Simple.init). rewrite Hp. reflexivity.
Qed.

Lemma simple_app_saves_only_on_click_witness :
  Simple.pending
    (Simple.run ([Simple.EditorChange (Some "a"); Simple.Render]
                 ++ [Simple.EditorChange None; Simple.Render; Simple.ClickSave])
       Simple.init)
  = [ReqSaveBuffer ""].
Proof.
  refine (proj2 (simple_app_saves_only_on_click
                   [Simple.EditorChange (Some "a"); Simple.Render] None _)).
  simpl. intros [H|[H|[]]]; discriminate H.
Defined.

(** ** Two loads in flight *)

Lemma nth_error_drop_nth_ge {A : Type} (l : list A) (i k : nat) :
  i <= k -> nth_error (drop_nth i l) k = nth_error l (S k).
Proof.
  revert i k. induction l as [|x l IH]; intros i k Hik.
  - destruct i, k; reflexivity.
  - destruct i as [|i]; [reflexivity|]. destruct k as [|k]; [lia|].
    simpl. apply IH. lia.
Qed.

Lemma pending_after_load (s : State) (n : nat) (origin : LoadOrigin)
    (contents : string) :
  mounted s = true ->
  nth_error (pending s) n = Some (ReqLoadBuffer origin) ->
  dispatch (LoadBufferSettled n (Resolved contents)) s
  = render (setCode contents (with_pending (drop_nth n (pending s)) s)).
Proof.
  intros Hm Hn. rewrite (dispatch_render _ s Hm).
  rewrite (settle_load s n origin contents Hm Hn). reflexivity.
Qed.

Lemma render_setCode_pending (s : State) (contents : string)
    (p : list Request) :
  exists issued,
    pending (render (setCode contents (with_pending p s))) = p ++ issued.
Proof. rewrite render_pending. eexists. reflexivity. Qed.

(** X14: two [load_buffer] calls outstanding at once (the one of the root
    effect and one of the Load button, or two of either) are not ordered:
    each resolved response replaces the text, so the text that stays is the
    one of the response that resolves last, in either order. *)
Theorem last_load_response_wins
    (events : list Event) (i j : nat) (first second : LoadOrigin)
    (textI textJ : string) :
  nth_error (pending (run events init)) i = Some (ReqLoadBuffer first) ->
  nth_error (pending (run events init)) (S j) = Some (ReqLoadBuffer second) ->
  i <= j ->
  code (rendered (dispatch (LoadBufferSettled i (Resolved textI))
                    (dispatch (LoadBufferSettled (S j) (Resolved textJ))
                       (run events init)))) = textI
  /\ code (rendered (dispatch (LoadBufferSettled j (Resolved textJ))
                       (dispatch (LoadBufferSettled i (Resolved textI))
                          (run events init)))) = textJ.
Proof.
  intros Hi Hj Hij.
  assert (Hr : reachable (run events init)) by (exists events; reflexivity).
  pose proof (pending_mounted _ _ _ Hr Hi) as Hm.
  set (s := run events init) in *.
  assert (Hlt : forall (a : list Request) k, nth_error a k <> None ->
                  forall b, nth_error (a ++ b) k = nth_error a k).
  { intros a k Hk b. apply nth_error_app1, nth_error_Some, Hk. }
  split.
  - rewrite (pending_after_load s (S j) second textJ Hm Hj).
    set (s1 := render _).
    assert (Hm1 : mounted s1 = true) by (unfold s1; rewrite render_mounted; exact Hm).
    assert (Hi1 : nth_error (pending s1) i = Some (ReqLoadBuffer first)).
    { destruct (render_setCode_pending s textJ (drop_nth (S j) (pending s)))
        as [issued E].
      unfold s1. rewrite E, Hlt; rewrite nth_error_drop_nth_lt by lia;
        [exact Hi|]. rewrite Hi. discriminate. }
    rewrite (pending_after_load s1 i first textI Hm1 Hi1), render_rendered.
    reflexivity.
  - rewrite (pending_after_load s i first textI Hm Hi).
    set (s1 := render _).
    assert (Hm1 : mounted s1 = true) by (unfold s1; rewrite render_mounted; exact Hm).
    assert (Hj1 : nth_error (pending s1) j = Some (ReqLoadBuffer second)).
    { destruct (render_setCode_pending s textI (drop_nth i (pending s)))
        as [issued E].
      unfold s1. rewrite E, Hlt; rewrite nth_error_drop_nth_ge by lia;
        [exact Hj|]. rewrite Hj. discriminate. }
    rewrite (pending_after_load s1 j second textJ Hm1 Hj1), render_rendered.
    reflexivity.
Qed.

Lemma last_load_response_wins_witness :
  code (rendered (dispatch (LoadBufferSettled 1 (Resolved "from mount"))
                    (dispatch (LoadBufferSettled 2 (Resolved "from button"))
                       (run [Mount; ClickLoad] init)))) = "from mount"
  /\ code (rendered (dispatch (LoadBufferSettled 1 (Resolved "from button"))
                       (dispatch (LoadBufferSettled 1 (Resolved "from mount"))
                          (run [Mount; ClickLoad] init)))) = "from button".
Proof.
  refine (last_load_response_wins [Mount; ClickLoad] 1 1 FromEffect FromButton
            "from mount" "from button" eq_refl eq_refl _).
  lia.
Defined.
